(** * SignalZero symbol store MCP server: a shallow embedding

    The development follows [symbol_store_server.py]: Python values as a
    JSON-shaped inductive type, [json.dumps(payload, indent=2,
    ensure_ascii=False)] as the recursive encoder of CPython's
    [json.encoder], the HTTP client as a small state-and-exception monad
    over a world that records every outbound call, the tool catalogue and
    the dispatcher [call_tool] on top of them. *)

From Stdlib Require Import ZArith String Ascii List Bool Lia DecimalString.
From Stdlib Require Import DecimalPos DecimalZ.
From stdpp Require Import gmap strings list.

Open Scope string_scope.

(** Text is built by concatenation throughout; let it simplify. *)
#[local] Arguments String.append !s1 s2 : simpl nomatch.

(** ** Python values *)

(** Characters of the text of a finite float: [float.__repr__] only ever
    produces digits, a sign, a point and an exponent mark. *)
Inductive float_glyph :=
| G0 | G1 | G2 | G3 | G4 | G5 | G6 | G7 | G8 | G9
| GPoint | GMinus | GPlus | GExp.

(** A Python float as this program observes it.  The program tests floats
    for truth and prints them, nothing else, so a finite float is carried
    by its shortest representation, the text of [repr], which is never
    empty. *)
Inductive pyfloat :=
| FNan
| FInf (negative : bool)
| FFinite (first : float_glyph) (rest : list float_glyph).

(** Values that travel through the server: tool arguments, remote
    payloads and the loaded interface description.  [JNull] is [None];
    a [dict] keeps its insertion order, so it is an association list. *)
#[local] Unset Elimination Schemes.
Inductive json :=
| JNull
| JBool (b : bool)
| JInt (z : Z)
| JFloat (f : pyfloat)
| JStr (s : string)
| JList (items : list json)
| JDict (entries : list (string * json)).
#[local] Set Elimination Schemes.

(** Induction over nested values. *)
Section json_induction.
Variable P : json -> Prop.
Hypothesis Hnull : P JNull.
Hypothesis Hbool : forall b, P (JBool b).
Hypothesis Hnum : forall z, P (JInt z).
Hypothesis Hfloat : forall f, P (JFloat f).
Hypothesis Hstr : forall s, P (JStr s).
Hypothesis Hlist : forall l, Forall P l -> P (JList l).
Hypothesis Hdict : forall d, Forall (fun kv => P (snd kv)) d -> P (JDict d).

Fixpoint json_nested_ind (o : json) : P o :=
  match o with
  | JNull => Hnull
  | JBool b => Hbool b
  | JInt z => Hnum z
  | JFloat f => Hfloat f
  | JStr s => Hstr s
  | JList l =>
      Hlist l ((fix go (l : list json) : Forall P l :=
                  match l with
                  | [] => Forall_nil_2 P
                  | x :: r => Forall_cons_2 P x r (json_nested_ind x) (go r)
                  end) l)
  | JDict d =>
      Hdict d ((fix go (d : list (string * json))
                 : Forall (fun kv => P (snd kv)) d :=
                  match d with
                  | [] => Forall_nil_2 _
                  | (k, v) :: r =>
                      Forall_cons_2 (fun kv => P (snd kv)) (k, v) r
                        (json_nested_ind v) (go r)
                  end) d)
  end.
End json_induction.

(** ** Text helpers *)

Definition quote_char : ascii := "034"%char.
Definition backslash_char : ascii := "092"%char.
Definition newline_char : ascii := "010"%char.
Definition space_char : ascii := " "%char.

Definition str1 (c : ascii) : string := String c EmptyString.

Definition NL : string := str1 newline_char.

(** [s * n] on strings. *)
Fixpoint str_repeat (s : string) (n : nat) : string :=
  match n with
  | O => ""
  | S k => s ++ str_repeat s k
  end.

(** [int.__repr__]: decimal digits with a leading minus sign. *)
Definition int_repr (z : Z) : string := NilZero.string_of_int (Z.to_int z).

Definition glyph_char (g : float_glyph) : ascii :=
  match g with
  | G0 => "0"%char | G1 => "1"%char | G2 => "2"%char | G3 => "3"%char
  | G4 => "4"%char | G5 => "5"%char | G6 => "6"%char | G7 => "7"%char
  | G8 => "8"%char | G9 => "9"%char
  | GPoint => "."%char
  | GMinus => "-"%char
  | GPlus => "+"%char
  | GExp => "e"%char
  end.

Fixpoint glyphs_text (l : list float_glyph) : string :=
  match l with
  | [] => ""
  | g :: r => String (glyph_char g) (glyphs_text r)
  end.

(** [float.__repr__], which is also [str] of a float. *)
Definition float_repr (f : pyfloat) : string :=
  match f with
  | FNan => "nan"
  | FInf false => "inf"
  | FInf true => "-inf"
  | FFinite g r => glyphs_text (g :: r)
  end.

(** [bool(x)] for a float: [x != 0.0]; both zeros print as below. *)
Definition float_is_zero (f : pyfloat) : bool :=
  match f with
  | FFinite g r =>
      String.eqb (glyphs_text (g :: r)) "0.0"
      || String.eqb (glyphs_text (g :: r)) "-0.0"
  | _ => false
  end.

(** Python truth value of a payload ([if data]). *)
Definition truthy (o : json) : bool :=
  match o with
  | JNull => false
  | JBool b => b
  | JInt z => negb (z =? 0)%Z
  | JFloat f => negb (float_is_zero f)
  | JStr s => negb (String.eqb s "")
  | JList l => match l with [] => false | _ => true end
  | JDict d => match d with [] => false | _ => true end
  end.

(** ** [json.dumps(payload, indent=2, ensure_ascii=False)]

    With [indent] given, [json.dumps] builds a [JSONEncoder] whose item
    separator is a comma and whose key separator is a colon and a space;
    [sort_keys] keeps its default [False] and [allow_nan] its default
    [True].  The functions below are [json.encoder]'s, at these
    settings. *)

Definition hex_digit (n : nat) : ascii :=
  if (n <? 10)%nat then ascii_of_nat (48 + n) else ascii_of_nat (87 + n).

(** [ESCAPE_DCT]: the replacement of one character matched by [ESCAPE],
    and the character itself when [ESCAPE] does not match it. *)
Definition escape_char (c : ascii) : string :=
  let n := nat_of_ascii c in
  if (n =? 92)%nat then String backslash_char (str1 backslash_char)
  else if (n =? 34)%nat then String backslash_char (str1 quote_char)
  else if (n =? 8)%nat then String backslash_char "b"
  else if (n =? 12)%nat then String backslash_char "f"
  else if (n =? 10)%nat then String backslash_char "n"
  else if (n =? 13)%nat then String backslash_char "r"
  else if (n =? 9)%nat then String backslash_char "t"
  else if (n <? 32)%nat then
    String backslash_char
      ("u00" ++ String (hex_digit (n / 16)) (str1 (hex_digit (n mod 16))))
  else str1 c.

Fixpoint escape_sub (s : string) : string :=
  match s with
  | EmptyString => ""
  | String c r => escape_char c ++ escape_sub r
  end.

(** [py_encode_basestring], the encoder chosen by [ensure_ascii=False]. *)
Definition py_encode_basestring (s : string) : string :=
  String quote_char (escape_sub s ++ str1 quote_char).

(** [floatstr] with [allow_nan=True]. *)
Definition floatstr (f : pyfloat) : string :=
  match f with
  | FNan => "NaN"
  | FInf false => "Infinity"
  | FInf true => "-Infinity"
  | FFinite _ _ => float_repr f
  end.

Definition _indent : string := str_repeat " " 2.
Definition _item_separator : string := ",".
Definition _key_separator : string := ": ".

Definition newline_indent (level : nat) : string :=
  NL ++ str_repeat _indent level.

(** The loop shared by [_iterencode_list] and [_iterencode_dict]: the
    first item is emitted bare, every later one after the separator. *)
Section chunks.
Context {A : Type} (emit : A -> string) (separator : string).

Fixpoint join_chunks (first : bool) (l : list A) : string :=
  match l with
  | [] => ""
  | x :: r =>
      (if first then "" else separator) ++ emit x ++ join_chunks false r
  end.
End chunks.

Fixpoint _iterencode (o : json) (_current_indent_level : nat) : string :=
  match o with
  | JStr s => py_encode_basestring s
  | JNull => "null"
  | JBool true => "true"
  | JBool false => "false"
  | JInt z => int_repr z
  | JFloat f => floatstr f
  | JList lst =>
      match lst with
      | [] => "[]"
      | _ =>
          let level := S _current_indent_level in
          "[" ++ newline_indent level
          ++ join_chunks (fun value => _iterencode value level)
               (_item_separator ++ newline_indent level) true lst
          ++ newline_indent _current_indent_level ++ "]"
      end
  | JDict dct =>
      match dct with
      | [] => "{}"
      | _ =>
          let level := S _current_indent_level in
          "{" ++ newline_indent level
          ++ join_chunks
               (fun '(key, value) =>
                  py_encode_basestring key ++ _key_separator
                  ++ _iterencode value level)
               (_item_separator ++ newline_indent level) true dct
          ++ newline_indent _current_indent_level ++ "}"
      end
  end.

Definition format_json_payload (payload : json) : string :=
  _iterencode payload 0.

(** ** Formatting a value inside an f-string *)

Section python_text.
(** [repr] of a [str] picks its quotes and escapes by the Unicode
    character database, which is the interpreter's and not this
    program's: it is a parameter of the development. *)
Variable str_repr : string -> string.

Fixpoint py_repr (o : json) : string :=
  match o with
  | JNull => "None"
  | JBool true => "True"
  | JBool false => "False"
  | JInt z => int_repr z
  | JFloat f => float_repr f
  | JStr s => str_repr s
  | JList l => "[" ++ join_chunks py_repr ", " true l ++ "]"
  | JDict d =>
      "{"
      ++ join_chunks (fun '(k, v) => str_repr k ++ ": " ++ py_repr v)
           ", " true d
      ++ "}"
  end.

(** What [f"{x}"] inserts for [x]: a [str] as it is, anything else by
    its [repr]. *)
Definition py_str (o : json) : string :=
  match o with
  | JStr s => s
  | _ => py_repr o
  end.
End python_text.

(** ** Exceptions, the outside world and the monad of effects *)

(** The request object that httpx built, as an exception reports it. *)
Record httpx_Request := { method : string; url : string }.

(** What the program reads from an [httpx.Response]: its status, its
    body text, the outcome of [response.json()] ([None] when the body
    does not decode) and the request it answers. *)
Record httpx_Response := {
  status_code : Z;
  text : string;
  decoded : option json;
  request : httpx_Request
}.

Inductive exn :=
| KeyError (key : string)
| TypeError
| AttributeError
| ValidationError
| JSONDecodeError
| TransportError
| HTTPStatusError (req : httpx_Request) (response : httpx_Response).

Inductive outcome (A : Type) :=
| Ok (a : A)
| Raise (e : exn).
Arguments Ok {A} a.
Arguments Raise {A} e.

Definition outcome_bind {A B} (m : outcome A) (k : A -> outcome B)
  : outcome B :=
  match m with
  | Ok a => k a
  | Raise e => Raise e
  end.

Notation "x <-? m ;; k" := (outcome_bind m (fun x => k))
  (at level 62, m at next level, right associativity).

(** One call of [AsyncClient.request], with the client settings it is
    made under. *)
Record Outbound := {
  out_base_url : string;
  out_headers : list (string * string);
  out_timeout : pyfloat;
  out_method : string;
  out_path : string;
  out_params : option (list (string * json));
  out_json : option json
}.

(** The world of one process: its environment variables, the remote
    service (which may answer by what it was sent before; no answer is a
    network failure) and the calls sent so far, oldest first. *)
Record World := {
  environ : gmap string string;
  remote : list Outbound -> Outbound -> option httpx_Response;
  sent : list Outbound
}.

Definition M (A : Type) : Type := World -> outcome A * World.

Definition ret {A} (a : A) : M A := fun w => (Ok a, w).
Definition raise {A} (e : exn) : M A := fun w => (Raise e, w).
Definition bind {A B} (m : M A) (k : A -> M B) : M B :=
  fun w =>
    match m w with
    | (Ok a, w') => k a w'
    | (Raise e, w') => (Raise e, w')
    end.

Notation "x <- m ;; k" := (bind m (fun x => k))
  (at level 62, m at next level, right associativity).

(** [try: m  except HTTPStatusError as exc: handler exc]: any other
    exception passes through. *)
Definition try_except_HTTPStatusError {A} (m : M A)
    (handler : httpx_Request -> httpx_Response -> M A) : M A :=
  fun w =>
    match m w with
    | (Raise (HTTPStatusError req response), w') => handler req response w'
    | r => r
    end.

(** [os.getenv(key)] *)
Definition getenv (key : string) : M (option string) :=
  fun w => (Ok (environ w !! key), w).

(** The world once [call] has gone out. *)
Definition add_sent (w : World) (call : Outbound) : World :=
  {| environ := environ w; remote := remote w; sent := sent w ++ [call] |}.

(** [await client.request(...)] inside [async with httpx.AsyncClient]. *)
Definition client_request (call : Outbound) : M httpx_Response :=
  fun w =>
    match remote w (sent w) call with
    | Some response => (Ok response, add_sent w call)
    | None => (Raise TransportError, add_sent w call)
    end.

(** [Response.is_success]: the status is 2xx. *)
Definition is_success (response : httpx_Response) : bool :=
  (200 <=? status_code response)%Z && (status_code response <=? 299)%Z.

Definition raise_for_status (response : httpx_Response) : M unit :=
  if is_success response then ret tt
  else raise (HTTPStatusError (request response) response).

(** [response.json()] *)
Definition response_json (response : httpx_Response) : M json :=
  match decoded response with
  | Some data => ret data
  | None => raise JSONDecodeError
  end.

(** ** Dictionaries and subscripts *)

(** [value is None] *)
Definition is_None (o : json) : bool :=
  match o with
  | JNull => true
  | _ => false
  end.

Fixpoint assoc_lookup (key : string) (d : list (string * json))
  : option json :=
  match d with
  | [] => None
  | (k, v) :: r => if String.eqb k key then Some v else assoc_lookup key r
  end.

(** [o[key]] for a string key: a [dict] looks the key up, every other
    value of the model refuses a string subscript. *)
Definition getitem (o : json) (key : string) : outcome json :=
  match o with
  | JDict d =>
      match assoc_lookup key d with
      | Some v => Ok v
      | None => Raise (KeyError key)
      end
  | _ => Raise TypeError
  end.

(** [o.get(key, default)]: only a [dict] has the method. *)
Definition get_method (o : json) (key : string) (default : json)
  : outcome json :=
  match o with
  | JDict d =>
      match assoc_lookup key d with
      | Some v => Ok v
      | None => Ok default
      end
  | _ => Raise AttributeError
  end.

(** The tool arguments are a [dict] with string keys, used as a map:
    [arguments.get(key)], which is [None] for a key that is not there,
    and [arguments[key]], which raises for it. *)
Definition arguments_get (arguments : gmap string json) (key : string)
  : json :=
  match arguments !! key with
  | Some v => v
  | None => JNull
  end.

Definition arguments_getitem (arguments : gmap string json) (key : string)
  : M json :=
  match arguments !! key with
  | Some v => ret v
  | None => raise (KeyError key)
  end.

(** [s.rstrip(chars)] *)
Fixpoint contains_char (c : ascii) (chars : string) : bool :=
  match chars with
  | EmptyString => false
  | String d r => if Ascii.eqb c d then true else contains_char c r
  end.

Fixpoint rstrip (chars : string) (s : string) : string :=
  match s with
  | EmptyString => ""
  | String c r =>
      match rstrip chars r with
      | EmptyString => if contains_char c chars then "" else str1 c
      | r' => String c r'
      end
  end.

(** ** The remote client *)

Definition DEFAULT_BASE_URL : string :=
  "https://qnw96whs57.execute-api.us-west-2.amazonaws.com/prod".

Record SymbolStoreClient := {
  base_url : string;
  headers : list (string * string);
  timeout : pyfloat
}.

Definition default_timeout : pyfloat :=
  FFinite G1 [G0; GPoint; G0].

(** [SymbolStoreClient.__init__] *)
Definition SymbolStoreClient_init (base_url : string)
    (api_key : option string) (timeout : pyfloat) : SymbolStoreClient :=
  {| base_url := rstrip "/" base_url;
     headers :=
       [("Accept", "application/json")]
       ++ match api_key with
          | Some key =>
              if String.eqb key "" then [] else [("x-api-key", key)]
          | None => []
          end;
     timeout := timeout |}.

Definition _request (self : SymbolStoreClient) (method path : string)
    (params : option (list (string * json))) (json_body : option json)
  : M httpx_Response :=
  response <-
    client_request
      {| out_base_url := base_url self;
         out_headers := headers self;
         out_timeout := timeout self;
         out_method := method;
         out_path := path;
         out_params := params;
         out_json := json_body |} ;;
  _ <- raise_for_status response ;;
  ret response.

Definition query_symbols (self : SymbolStoreClient)
    (symbol_domain symbol_tag last_symbol_id limit : json) : M json :=
  let params :=
    List.filter (fun '(key, value) => negb (is_None value))
      [("symbol_domain", symbol_domain);
       ("symbol_tag", symbol_tag);
       ("last_symbol_id", last_symbol_id);
       ("limit", limit)] in
  response <- _request self "GET" "/symbol" (Some params) None ;;
  response_json response.

Definition list_domains (self : SymbolStoreClient) : M json :=
  response <- _request self "GET" "/domains" None None ;;
  response_json response.

Section client_paths.
Variable str_repr : string -> string.

Definition get_symbol (self : SymbolStoreClient) (symbol_id : json)
  : M json :=
  response <-
    _request self "GET" ("/symbol/" ++ py_str str_repr symbol_id)
      None None ;;
  response_json response.

Definition put_symbol (self : SymbolStoreClient) (symbol_id : json)
    (payload : json) : M json :=
  response <-
    _request self "PUT" ("/save_symbol/" ++ py_str str_repr symbol_id)
      None (Some payload) ;;
  response_json response.
End client_paths.

(** ** The tool catalogue *)

(** [mcp.types.Tool], a pydantic model: [name: str],
    [description: str | None], [inputSchema: dict[str, Any]]. *)
Record Tool := {
  name : string;
  description : option string;
  inputSchema : json
}.

(** [Tool(name=..., description=..., inputSchema=...)].  The name and the
    schema are literals of the right type at every call of the builder;
    the description comes from the interface description and is
    validated against [str | None]. *)
Definition Tool_init (name : string) (description : json)
    (inputSchema : json) : outcome Tool :=
  match description with
  | JStr s =>
      Ok {| name := name; description := Some s;
            inputSchema := inputSchema |}
  | JNull =>
      Ok {| name := name; description := None;
            inputSchema := inputSchema |}
  | _ => Raise ValidationError
  end.

(** [spec["paths"][path][verb].get("summary", default)] *)
Definition summary (spec : json) (path verb default : string)
  : outcome json :=
  paths <-? getitem spec "paths" ;;
  item <-? getitem paths path ;;
  operation <-? getitem item verb ;;
  get_method operation "summary" (JStr default).

Definition field (type description : string) : json :=
  JDict [("type", JStr type); ("description", JStr description)].

Definition build_tools_from_spec (spec : json) : outcome (list Tool) :=
  d1 <-? summary spec "/symbol" "get" "Query symbols" ;;
  t1 <-?
    Tool_init "query_symbols" d1
      (JDict
         [("type", JStr "object");
          ("properties",
            JDict
              [("symbol_domain", field "string" "Filter by domain");
               ("symbol_tag", field "string" "Filter by tag");
               ("last_symbol_id", field "string" "Start after ID");
               ("limit", field "integer" "Maximum results")])]) ;;
  d2 <-? summary spec "/symbol/{id}" "get" "Get symbol by ID" ;;
  t2 <-?
    Tool_init "get_symbol_by_id" d2
      (JDict
         [("type", JStr "object");
          ("properties",
            JDict [("id", field "string" "Symbol identifier")]);
          ("required", JList [JStr "id"])]) ;;
  d3 <-? summary spec "/save_symbol/{symbol_id}" "put" "Save symbol" ;;
  components <-? getitem spec "components" ;;
  schemas <-? getitem components "schemas" ;;
  symbol <-? getitem schemas "Symbol" ;;
  t3 <-?
    Tool_init "put_symbol_by_id" d3
      (JDict
         [("type", JStr "object");
          ("properties",
            JDict
              [("symbol_id", field "string" "Symbol identifier");
               ("symbol", symbol)]);
          ("required", JList [JStr "symbol_id"; JStr "symbol"])]) ;;
  d4 <-? summary spec "/domains" "get" "List symbol domains" ;;
  t4 <-?
    Tool_init "list_domains" d4
      (JDict [("type", JStr "object"); ("properties", JDict [])]) ;;
  Ok [t1; t2; t3; t4].

(** ** The dispatcher *)

(** [mcp.types.TextContent] *)
Record TextContent := { content_type : string; content_text : string }.

Definition build_client : M SymbolStoreClient :=
  base_url <- getenv "SYMBOL_STORE_BASE_URL" ;;
  api_key <- getenv "SYMBOL_STORE_API_KEY" ;;
  ret (SymbolStoreClient_init
         (match base_url with Some u => u | None => DEFAULT_BASE_URL end)
         api_key default_timeout).

Section dispatcher.
Variable str_repr : string -> string.

Definition call_tool (name : string) (arguments : gmap string json)
  : M (list TextContent) :=
  client <- build_client ;;
  text <-
    try_except_HTTPStatusError
      (if String.eqb name "query_symbols" then
         data <-
           query_symbols client
             (arguments_get arguments "symbol_domain")
             (arguments_get arguments "symbol_tag")
             (arguments_get arguments "last_symbol_id")
             (arguments_get arguments "limit") ;;
         let message :=
           if truthy data then "Query results" else "No symbols returned" in
         ret (message ++ ":" ++ NL ++ format_json_payload data)
       else if String.eqb name "get_symbol_by_id" then
         id <- arguments_getitem arguments "id" ;;
         data <- get_symbol str_repr client id ;;
         ret (format_json_payload data)
       else if String.eqb name "put_symbol_by_id" then
         symbol_id <- arguments_getitem arguments "symbol_id" ;;
         symbol_body <- arguments_getitem arguments "symbol" ;;
         data <- put_symbol str_repr client symbol_id symbol_body ;;
         ret ("Stored symbol " ++ py_str str_repr symbol_id ++ ":" ++ NL
              ++ format_json_payload data)
       else if String.eqb name "list_domains" then
         data <- list_domains client ;;
         ret ("Available domains:" ++ NL ++ format_json_payload data)
       else
         ret ("Unknown tool: " ++ name))
      (fun req response =>
         let body := text response in
         ret ("Request to " ++ method req ++ " " ++ url req
              ++ " failed with status "
              ++ int_repr (status_code response) ++ ": " ++ body)) ;;
  ret [ {| content_type := "text"; content_text := text |} ].
End dispatcher.

(** ** Reading a pretty-printed text back

    Three observations of an encoded text, each made by one pass over its
    characters: how its lines are laid out, which of its bytes are not
    ASCII, and which object keys it carries, in which order.  Strings of
    the model are byte strings (UTF-8), so a character that is not ASCII
    is a run of bytes of 128 and more. *)

Definition is_opener (c : ascii) : bool :=
  Ascii.eqb c "["%char || Ascii.eqb c "{"%char.
Definition is_closer (c : ascii) : bool :=
  Ascii.eqb c "]"%char || Ascii.eqb c "}"%char.

Inductive lexical := Code | InString | Escaped.

(** Where the layout pass stands on its line: at the start, having
    counted the spaces so far, on a line that must hold a closing bracket
    ([closing]) or the next item; right after an opening bracket; right
    after a comma; or anywhere else. *)
Inductive position :=
| LineStart (spaces : nat) (closing : bool)
| AfterOpen
| AfterComma
| Inside.

Record layout := { lexical_mode : lexical; depth : nat; pos : position }.

Definition at_ (m : lexical) (d : nat) (p : position) : layout :=
  {| lexical_mode := m; depth := d; pos := p |}.

(** A character of a line's content, outside string literals. *)
Definition content_step (d : nat) (c : ascii) : layout :=
  if Ascii.eqb c quote_char then at_ InString d Inside
  else if is_opener c then at_ Code (S d) AfterOpen
  else if Ascii.eqb c ","%char then at_ Code d AfterComma
  else at_ Code d Inside.

(** One character of the layout pass; [None] is a layout that is not the
    two-space one: a line break anywhere but after an opening bracket,
    after a comma or before a closing bracket, or a line whose
    indentation is not two spaces for each bracket open around it. *)
Definition layout_step (st : layout) (c : ascii) : option layout :=
  let d := depth st in
  match lexical_mode st with
  | InString =>
      if Ascii.eqb c quote_char then Some (at_ Code d Inside)
      else if Ascii.eqb c backslash_char then Some (at_ Escaped d Inside)
      else Some st
  | Escaped => Some (at_ InString d Inside)
  | Code =>
      match pos st with
      | LineStart k closing =>
          if Ascii.eqb c space_char then
            Some (at_ Code d (LineStart (S k) closing))
          else if Ascii.eqb c newline_char then None
          else if is_closer c then
            match d with
            | S d' =>
                if closing && (k =? 2 * d')%nat
                then Some (at_ Code d' Inside) else None
            | O => None
            end
          else if negb closing && (k =? 2 * d)%nat
          then Some (content_step d c) else None
      | AfterOpen =>
          if Ascii.eqb c newline_char then
            Some (at_ Code d (LineStart 0 false))
          else if is_closer c then
            match d with
            | S d' => Some (at_ Code d' Inside)
            | O => None
            end
          else None
      | AfterComma =>
          if Ascii.eqb c newline_char then
            Some (at_ Code d (LineStart 0 false))
          else None
      | Inside =>
          if Ascii.eqb c newline_char then
            Some (at_ Code d (LineStart 0 true))
          else if is_closer c then None
          else Some (content_step d c)
      end
  end.

Fixpoint layout_scan (s : string) (st : layout) : option layout :=
  match s with
  | EmptyString => Some st
  | String c r =>
      match layout_step st c with
      | Some st' => layout_scan r st'
      | None => None
      end
  end.

(** The text is one value laid out with two spaces for each level. *)
Definition two_space_layout (s : string) : bool :=
  match layout_scan s (at_ Code 0 (LineStart 0 false)) with
  | Some {| lexical_mode := Code; depth := O; pos := Inside |} => true
  | _ => false
  end.

Definition non_ascii (c : ascii) : bool := (128 <=? nat_of_ascii c)%nat.

Fixpoint keep_non_ascii (s : string) : string :=
  match s with
  | EmptyString => ""
  | String c r =>
      if non_ascii c then String c (keep_non_ascii r) else keep_non_ascii r
  end.

(** The bytes of a payload that are not ASCII, in document order: they
    all sit in its strings and in its keys. *)
Fixpoint non_ascii_content (o : json) : string :=
  match o with
  | JStr s => keep_non_ascii s
  | JList l => join_chunks non_ascii_content "" true l
  | JDict d =>
      join_chunks
        (fun '(k, v) => keep_non_ascii k ++ non_ascii_content v) "" true d
  | _ => ""
  end.

(** The keys of a payload in document order: every object's keys in the
    order of its entries, the keys inside a value right after the key
    that holds it. *)
Fixpoint payload_keys (o : json) : list string :=
  match o with
  | JList l => flat_map payload_keys l
  | JDict d => flat_map (fun '(k, v) => k :: payload_keys v) d
  | _ => []
  end.

Definition hex_value (c : ascii) : nat :=
  let n := nat_of_ascii c in
  if (n <? 58)%nat then n - 48 else if (n <? 71)%nat then n - 55 else n - 87.

(** The character that follows a backslash stands for. *)
Definition unescape (c : ascii) : ascii :=
  if Ascii.eqb c "b"%char then ascii_of_nat 8
  else if Ascii.eqb c "f"%char then ascii_of_nat 12
  else if Ascii.eqb c "n"%char then ascii_of_nat 10
  else if Ascii.eqb c "r"%char then ascii_of_nat 13
  else if Ascii.eqb c "t"%char then ascii_of_nat 9
  else c.

(** The key pass: outside literals; inside one, with the characters
    decoded so far (newest first); after a backslash; inside a [\u]
    escape, with the digits read so far; right after a literal. *)
Inductive key_mode :=
| KCode
| KString (buf : list ascii)
| KEscape (buf : list ascii)
| KUnicode (buf : list ascii) (digits : list nat)
| KAfter (buf : list ascii).

Definition text_of (buf : list ascii) : string :=
  string_of_list_ascii (rev buf).

(** One character of the key pass, over the mode and the keys found so
    far (newest first): a literal is a key when a colon follows it. *)
Definition key_step (st : key_mode * list string) (c : ascii)
  : key_mode * list string :=
  let '(m, found) := st in
  match m with
  | KCode =>
      if Ascii.eqb c quote_char then (KString [], found) else (KCode, found)
  | KString buf =>
      if Ascii.eqb c quote_char then (KAfter buf, found)
      else if Ascii.eqb c backslash_char then (KEscape buf, found)
      else (KString (c :: buf), found)
  | KEscape buf =>
      if Ascii.eqb c "u"%char then (KUnicode buf [], found)
      else (KString (unescape c :: buf), found)
  | KUnicode buf digits =>
      match digits with
      | [a; b; c'] =>
          (KString
             (ascii_of_nat (((a * 16 + b) * 16 + c') * 16 + hex_value c)
              :: buf), found)
      | _ => (KUnicode buf (digits ++ [hex_value c]), found)
      end
  | KAfter buf =>
      if Ascii.eqb c ":"%char then (KCode, text_of buf :: found)
      else if Ascii.eqb c quote_char then (KString [], found)
      else (KCode, found)
  end.

Fixpoint key_scan (s : string) (st : key_mode * list string)
  : key_mode * list string :=
  match s with
  | EmptyString => st
  | String c r => key_scan r (key_step st c)
  end.

(** The object keys of an encoded text, first to last. *)
Definition object_keys (s : string) : list string :=
  rev (snd (key_scan s (KCode, []))).

(** ** Vocabulary of the statements *)

(** The client that [build_client] makes in a world. *)
Definition client_of (w : World) : SymbolStoreClient :=
  SymbolStoreClient_init
    (match environ w !! "SYMBOL_STORE_BASE_URL" with
     | Some u => u
     | None => DEFAULT_BASE_URL
     end)
    (environ w !! "SYMBOL_STORE_API_KEY") default_timeout.

(** The call that [_request] hands to httpx. *)
Definition outbound (self : SymbolStoreClient) (method path : string)
    (params : option (list (string * json))) (json_body : option json)
  : Outbound :=
  {| out_base_url := base_url self;
     out_headers := headers self;
     out_timeout := timeout self;
     out_method := method;
     out_path := path;
     out_params := params;
     out_json := json_body |}.

(** A string literal as the encoder writes it, for plain text. *)
Definition quoted (s : string) : string :=
  String quote_char (s ++ str1 quote_char).

Definition text_content (text : string) : TextContent :=
  {| content_type := "text"; content_text := text |}.

(** The message of the [except] clause for a response. *)
Definition failure_text (response : httpx_Response) : string :=
  "Request to " ++ method (request response) ++ " "
  ++ url (request response) ++ " failed with status "
  ++ int_repr (status_code response) ++ ": " ++ text response.

(** The operation object [spec["paths"][path][verb]] of an interface
    description, when the description has that path, the path has that
    verb and the operation is a mapping. *)
Definition operation (spec : json) (path verb : string)
  : option (list (string * json)) :=
  match spec with
  | JDict top =>
      match assoc_lookup "paths" top with
      | Some (JDict paths) =>
          match assoc_lookup path paths with
          | Some (JDict item) =>
              match assoc_lookup verb item with
              | Some (JDict op) => Some op
              | _ => None
              end
          | _ => None
          end
      | _ => None
      end
  | _ => None
  end.

(** The four paths the catalogue is built from, each with its verb. *)
Definition required_paths : list (string * string) :=
  [("/symbol", "get"); ("/symbol/{id}", "get");
   ("/save_symbol/{symbol_id}", "put"); ("/domains", "get")].

Definition has_required_paths (spec : json) : bool :=
  forallb
    (fun '(path, verb) =>
       match operation spec path verb with Some _ => true | None => false end)
    required_paths.

(** Every summary of a required operation is a string or null. *)
Definition summaries_are_text (spec : json) : bool :=
  forallb
    (fun '(path, verb) =>
       match operation spec path verb with
       | Some op =>
           match assoc_lookup "summary" op with
           | None | Some (JStr _) | Some JNull => true
           | Some _ => false
           end
       | None => true
       end)
    required_paths.

(** The schema component [spec["components"]["schemas"]["Symbol"]]. *)
Definition symbol_schema (spec : json) : option json :=
  match spec with
  | JDict top =>
      match assoc_lookup "components" top with
      | Some (JDict components) =>
          match assoc_lookup "schemas" components with
          | Some (JDict schemas) => assoc_lookup "Symbol" schemas
          | _ => None
          end
      | _ => None
      end
  | _ => None
  end.

Definition tool_names : list string :=
  ["query_symbols"; "get_symbol_by_id"; "put_symbol_by_id"; "list_domains"].

(** What a tool invocation does once its call is fixed: the call goes
    out, and the answer decides between the formatted payload, the text
    of the [except] clause and an exception that escapes. *)
Definition settle (w : World) (call : Outbound) (render : json -> string)
  : outcome (list TextContent) * World :=
  match remote w (sent w) call with
  | None => (Raise TransportError, add_sent w call)
  | Some r =>
      if is_success r then
        match decoded r with
        | Some data => (Ok [text_content (render data)], add_sent w call)
        | None => (Raise JSONDecodeError, add_sent w call)
        end
      else (Ok [text_content (failure_text r)], add_sent w call)
  end.

Definition query_params (symbol_domain symbol_tag last_symbol_id limit : json)
  : list (string * json) :=
  List.filter (fun '(key, value) => negb (is_None value))
    [("symbol_domain", symbol_domain); ("symbol_tag", symbol_tag);
     ("last_symbol_id", last_symbol_id); ("limit", limit)].

(** An interface description with the four paths and their summaries,
    and no schema component. *)
Definition spec_without_components : json :=
  JDict
    [("paths",
       JDict
         [("/symbol", JDict [("get", JDict [("summary", JStr "Query")])]);
          ("/symbol/{id}", JDict [("get", JDict [("summary", JStr "Get")])]);
          ("/save_symbol/{symbol_id}",
            JDict [("put", JDict [("summary", JStr "Save")])]);
          ("/domains", JDict [("get", JDict [])])])].

(** Characters of bare tokens: letters, digits, signs and the point. *)
Definition token_char (c : ascii) : bool :=
  let n := nat_of_ascii c in
  ((48 <=? n) && (n <=? 57) || (65 <=? n) && (n <=? 90)
   || (97 <=? n) && (n <=? 122) || (n =? 43) || (n =? 45) || (n =? 46))%nat.

Fixpoint all_chars (P : ascii -> bool) (s : string) : bool :=
  match s with
  | EmptyString => true
  | String c r => P c && all_chars P r
  end.

(** A bare token: [null], [true], a number and the like. *)
Definition token (s : string) : bool :=
  match s with
  | EmptyString => false
  | _ => all_chars token_char s
  end.

(** The layout pass takes the text [s] from one state to another. *)
Definition runs (s : string) (st st' : layout) : Prop :=
  layout_scan s st = Some st'.

(** Where a value may begin at depth [d]: inside a line, or at the start
    of a line that is indented for an item of that depth. *)
Definition begins (d : nat) (p : position) : Prop :=
  p = Inside \/ p = LineStart (2 * d) false.

(** The key pass is not inside a literal. *)
Definition quiet (m : key_mode) : Prop :=
  m = KCode \/ exists buf, m = KAfter buf.

(** ** Sample inputs *)

(** [repr] of a [str] of printable ASCII without quotes or backslashes. *)
Definition sample_str_repr (s : string) : string := "'" ++ s ++ "'".

Definition domains_request : httpx_Request :=
  {| method := "GET"; url := "http://example.com/domains" |}.

Definition response_not_found : httpx_Response :=
  {| status_code := 404; text := "not found"; decoded := None;
     request := domains_request |}.

Definition response_zero : httpx_Response :=
  {| status_code := 200; text := "0"; decoded := Some (JInt 0);
     request := {| method := "GET"; url := "http://example.com/symbol" |} |}.

Definition response_numbers : httpx_Response :=
  {| status_code := 200; text := "[7, 8]";
     decoded := Some (JList [JInt 7; JInt 8]);
     request := {| method := "GET"; url := "http://example.com/symbol/s1" |} |}.

(** A fresh process whose remote service always answers [response]. *)
Definition answering (response : httpx_Response) : World :=
  {| environ := ∅; remote := fun _ _ => Some response; sent := [] |}.

Definition spec_with_schema : json :=
  match spec_without_components with
  | JDict top =>
      JDict
        (top
         ++ [("components",
               JDict
                 [("schemas",
                    JDict [("Symbol", JDict [("type", JStr "object")])])])])
  | other => other
  end.

(** ** The rest of the program, and the vocabulary of its properties *)


(** [text.split(sep, 1)] for a separator of one character, as the test
    suite takes a result text apart. *)
Fixpoint split_once (sep : ascii) (s : string) : list string :=
  match s with
  | EmptyString => [""]
  | String c r =>
      if Ascii.eqb c sep then [""; r]
      else
        match split_once sep r with
        | head :: tail => String c head :: tail
        | [] => [str1 c]
        end
  end.

Fixpoint last_char (s : string) : option ascii :=
  match s with
  | EmptyString => None
  | String c EmptyString => Some c
  | String _ r => last_char r
  end.

(** The base URL the process is configured with: the environment
    variable when it is set, the default otherwise. *)
Definition configured_base_url (w : World) : string :=
  match environ w !! "SYMBOL_STORE_BASE_URL" with
  | Some u => u
  | None => DEFAULT_BASE_URL
  end.

(** The description that an operation object gives its tool. *)
Definition expected_description (op : list (string * json))
    (default : string) : option string :=
  match assoc_lookup "summary" op with
  | None => Some default
  | Some (JStr s) => Some s
  | Some _ => None
  end.



(** The string that a text holding one string literal stands for, read
    by the key pass. *)
Definition read_literal (s : string) : option string :=
  match key_scan s (KCode, []) with
  | (KAfter buf, _) => Some (text_of buf)
  | _ => None
  end.

(** The integer that a decimal text stands for. *)
Definition read_int (s : string) : option Z :=
  option_map Z.of_int (NilZero.int_of_string s).

(** A process whose remote service cannot be reached. *)
Definition unreachable : World :=
  {| environ := {[ "SYMBOL_STORE_BASE_URL" := "http://localhost:8080//";
                   "SYMBOL_STORE_API_KEY" := "secret" ]};
     remote := fun _ _ => None;
     sent := [] |}.


(** A 2xx answer whose body is no JSON. *)
Definition response_page : httpx_Response :=
  {| status_code := 200; text := "<html></html>"; decoded := None;
     request := domains_request |}.

(** The arguments that each tool reads. *)
Definition tool_reads (name : string) : list string :=
  if String.eqb name "query_symbols" then
    ["symbol_domain"; "symbol_tag"; "last_symbol_id"; "limit"]
  else if String.eqb name "get_symbol_by_id" then ["id"]
  else if String.eqb name "put_symbol_by_id" then ["symbol_id"; "symbol"]
  else [].

(** The input schemas of the four tools, as the builder writes them. *)
Definition query_symbols_schema : json :=
  JDict
    [("type", JStr "object");
     ("properties",
       JDict
         [("symbol_domain", field "string" "Filter by domain");
          ("symbol_tag", field "string" "Filter by tag");
          ("last_symbol_id", field "string" "Start after ID");
          ("limit", field "integer" "Maximum results")])].

Definition get_symbol_by_id_schema : json :=
  JDict
    [("type", JStr "object");
     ("properties", JDict [("id", field "string" "Symbol identifier")]);
     ("required", JList [JStr "id"])].

Definition put_symbol_by_id_schema (symbol : json) : json :=
  JDict
    [("type", JStr "object");
     ("properties",
       JDict
         [("symbol_id", field "string" "Symbol identifier");
          ("symbol", symbol)]);
     ("required", JList [JStr "symbol_id"; JStr "symbol"])].

Definition list_domains_schema : json :=
  JDict [("type", JStr "object"); ("properties", JDict [])].

(** The summary of an operation, if it has one, is a string or null. *)
Definition summary_is_text (op : list (string * json)) : bool :=
  match assoc_lookup "summary" op with
  | None | Some (JStr _) | Some JNull => true
  | Some _ => false
  end.

(** The catalogue of the sample description. *)
Definition sample_catalogue : list Tool :=
  match build_tools_from_spec spec_with_schema with
  | Ok tools => tools
  | Raise _ => []
  end.

(** The sample description with a number for the summary of [/domains]. *)
Definition spec_with_numeric_summary : json :=
  JDict
    [("paths",
       JDict
         [("/symbol", JDict [("get", JDict [])]);
          ("/symbol/{id}", JDict [("get", JDict [])]);
          ("/save_symbol/{symbol_id}", JDict [("put", JDict [])]);
          ("/domains", JDict [("get", JDict [("summary", JInt 4)])])]);
     ("components",
       JDict [("schemas", JDict [("Symbol", JDict [])])])].



(** * Properties *)

(** ** Text *)

Lemma append_nil_r (a : string) : a ++ "" = a.
Proof. induction a as [|x a IH]; simpl; [reflexivity | now rewrite IH]. Qed.

Lemma digits_are_tokens d :
  all_chars token_char (NilEmpty.string_of_uint d) = true.
Proof. induction d; simpl; auto. Qed.

Lemma token_int_repr z : token (int_repr z) = true.
Proof.
  assert (H : forall d, token (NilZero.string_of_uint d) = true).
  { intros d. destruct d; try reflexivity; simpl; apply digits_are_tokens. }
  unfold int_repr. destruct (Z.to_int z) as [d|d]; simpl.
  - apply H.
  - specialize (H d). unfold token in H.
    destruct (NilZero.string_of_uint d); [discriminate | exact H].
Qed.

Lemma token_glyphs g r : token (glyphs_text (g :: r)) = true.
Proof.
  assert (H : forall l, all_chars token_char (glyphs_text l) = true).
  { induction l as [|x l IH]; simpl; [reflexivity|].
    rewrite IH. destruct x; reflexivity. }
  specialize (H (g :: r)). simpl in *. exact H.
Qed.

Lemma token_floatstr f : token (floatstr f) = true.
Proof.
  destruct f as [|[]|g r]; try reflexivity. apply token_glyphs.
Qed.

Ltac each_char c := destruct c as [[] [] [] [] [] [] [] []].

(** ** The layout of the encoded text *)

Lemma runs_app a b st1 st2 st3 :
  runs a st1 st2 -> runs b st2 st3 -> runs (a ++ b) st1 st3.
Proof.
  unfold runs. revert st1. induction a as [|c a IH]; simpl; intros st1.
  - intros [= ->]. auto.
  - destruct (layout_step st1 c); [apply IH | discriminate].
Qed.

Lemma runs_nil st : runs "" st st.
Proof. reflexivity. Qed.

Lemma runs_cons c s st1 st2 st3 :
  layout_step st1 c = Some st2 -> runs s st2 st3 -> runs (String c s) st1 st3.
Proof. unfold runs. simpl. intros ->. auto. Qed.

Lemma token_char_inside d c :
  token_char c = true ->
  layout_step (at_ Code d Inside) c = Some (at_ Code d Inside).
Proof. each_char c; intros H; try discriminate H; reflexivity. Qed.

Lemma token_char_begins d p c :
  token_char c = true -> begins d p ->
  layout_step (at_ Code d p) c = Some (at_ Code d Inside).
Proof.
  intros H [-> | ->]; [now apply token_char_inside|].
  unfold layout_step. cbn [lexical_mode pos at_ depth].
  rewrite Nat.eqb_refl.
  each_char c; try discriminate H; reflexivity.
Qed.

Lemma runs_token_chars d s :
  all_chars token_char s = true -> runs s (at_ Code d Inside) (at_ Code d Inside).
Proof.
  induction s as [|c s IH]; simpl; [intros; apply runs_nil|].
  intros H. apply andb_prop in H as [Hc Hs].
  eapply runs_cons; [now apply token_char_inside | auto].
Qed.

Lemma runs_token d p s :
  token s = true -> begins d p ->
  runs s (at_ Code d p) (at_ Code d Inside).
Proof.
  destruct s as [|c s]; [discriminate|]. simpl.
  intros H Hp. apply andb_prop in H as [Hc Hs].
  eapply runs_cons; [now apply token_char_begins|].
  now apply runs_token_chars.
Qed.

Lemma runs_escape_char d c :
  runs (escape_char c) (at_ InString d Inside) (at_ InString d Inside).
Proof. each_char c; reflexivity. Qed.

Lemma runs_escape_sub d s :
  runs (escape_sub s) (at_ InString d Inside) (at_ InString d Inside).
Proof.
  induction s as [|c s IH]; simpl; [apply runs_nil|].
  eapply runs_app; [apply runs_escape_char | exact IH].
Qed.

Lemma quote_begins d p :
  begins d p ->
  layout_step (at_ Code d p) quote_char = Some (at_ InString d Inside).
Proof.
  intros [-> | ->]; [reflexivity|].
  unfold layout_step. cbn [lexical_mode pos at_ depth].
  rewrite Nat.eqb_refl. reflexivity.
Qed.

Lemma runs_string d p s :
  begins d p ->
  runs (py_encode_basestring s) (at_ Code d p) (at_ Code d Inside).
Proof.
  intros Hp. unfold py_encode_basestring.
  eapply runs_cons; [now apply quote_begins|].
  eapply runs_app; [apply runs_escape_sub|]. reflexivity.
Qed.

Lemma runs_spaces d closing n k :
  runs (str_repeat _indent n) (at_ Code d (LineStart k closing))
    (at_ Code d (LineStart (k + 2 * n) closing)).
Proof.
  revert k. induction n as [|n IH]; intros k; simpl.
  - rewrite Nat.add_0_r. apply runs_nil.
  - unfold runs. simpl. unfold runs in IH. rewrite IH.
    do 2 f_equal. f_equal. lia.
Qed.

(** A line break and the indentation of a level, after an opening
    bracket or a comma: the next line is due an item. *)
Lemma runs_newline_item d p level :
  p = AfterOpen \/ p = AfterComma ->
  runs (newline_indent level) (at_ Code d p)
    (at_ Code d (LineStart (2 * level) false)).
Proof.
  intros Hp. unfold newline_indent, NL, str1.
  eapply runs_cons; [|apply (runs_spaces d false level 0)].
  destruct Hp as [-> | ->]; reflexivity.
Qed.

(** The same after a value: the next line is due a closing bracket. *)
Lemma runs_newline_close d level :
  runs (newline_indent level) (at_ Code d Inside)
    (at_ Code d (LineStart (2 * level) true)).
Proof.
  unfold newline_indent, NL, str1.
  eapply runs_cons; [|apply (runs_spaces d true level 0)]. reflexivity.
Qed.

Lemma _iterencode_list x r n :
  _iterencode (JList (x :: r)) n =
    "[" ++ newline_indent (S n)
    ++ join_chunks (fun value => _iterencode value (S n))
         (_item_separator ++ newline_indent (S n)) true (x :: r)
    ++ newline_indent n ++ "]".
Proof. reflexivity. Qed.

Lemma _iterencode_dict (kv : string * json) r n :
  _iterencode (JDict (kv :: r)) n =
    "{" ++ newline_indent (S n)
    ++ join_chunks
         (fun '((key, value) : string * json) =>
            py_encode_basestring key ++ _key_separator
            ++ _iterencode value (S n))
         (_item_separator ++ newline_indent (S n)) true (kv :: r)
    ++ newline_indent n ++ "}".
Proof. reflexivity. Qed.

Lemma opener_begins d p c :
  begins d p -> c = "["%char \/ c = "{"%char ->
  layout_step (at_ Code d p) c = Some (at_ Code (S d) AfterOpen).
Proof.
  intros [-> | ->] [-> | ->]; try reflexivity;
    unfold layout_step; cbn [lexical_mode pos at_ depth];
    rewrite Nat.eqb_refl; reflexivity.
Qed.

Lemma closer_line d c :
  c = "]"%char \/ c = "}"%char ->
  layout_step (at_ Code (S d) (LineStart (2 * d) true)) c
    = Some (at_ Code d Inside).
Proof.
  intros [-> | ->]; unfold layout_step; cbn [lexical_mode pos at_ depth];
    rewrite Nat.eqb_refl; reflexivity.
Qed.

(** The items of a container, each on its line at depth [d]. *)
Lemma runs_items {A} (emit : A -> string) d (l : list A) :
  Forall (fun x => forall p, begins d p ->
            runs (emit x) (at_ Code d p) (at_ Code d Inside)) l ->
  forall (first : bool) (p : position),
    (if first then begins d p else p = Inside) ->
    l <> [] ->
    runs (join_chunks emit (_item_separator ++ newline_indent d) first l)
      (at_ Code d p) (at_ Code d Inside).
Proof.
  induction 1 as [|x l Hx Hl IH]; intros first p Hp Hne; [congruence|].
  cbn [join_chunks].
  assert (Hrest : runs (join_chunks emit
                          (_item_separator ++ newline_indent d) false l)
                    (at_ Code d Inside) (at_ Code d Inside)).
  { destruct l as [|y l]; [apply runs_nil|].
    apply (IH false Inside); [reflexivity | discriminate]. }
  destruct first.
  - simpl. eapply runs_app; [apply Hx, Hp | exact Hrest].
  - subst p. eapply runs_app; [|eapply runs_app; [apply Hx|exact Hrest]].
    + unfold _item_separator. simpl.
      eapply runs_cons; [reflexivity|].
      apply runs_newline_item. now right.
    + now right.
Qed.

Lemma runs_iterencode (o : json) :
  forall n p, begins n p ->
    runs (_iterencode o n) (at_ Code n p) (at_ Code n Inside).
Proof.
  induction o as [| b | z | f | s | l IH | d IH] using json_nested_ind;
    intros n p Hp.
  - now apply runs_token.
  - destruct b; now apply runs_token.
  - apply runs_token; [apply token_int_repr | exact Hp].
  - apply runs_token; [apply token_floatstr | exact Hp].
  - now apply runs_string.
  - destruct l as [|x r].
    + eapply runs_cons; [apply opener_begins; auto|].
      eapply runs_cons; [reflexivity | apply runs_nil].
    + rewrite _iterencode_list.
      eapply runs_cons; [apply opener_begins; auto|].
      eapply runs_app; [apply runs_newline_item; now left|].
      eapply runs_app.
      * apply (runs_items (fun value => _iterencode value (S n)) (S n));
          [|now right|discriminate].
        eapply Forall_impl; [exact IH|]. cbn beta. auto.
      * eapply runs_app; [apply runs_newline_close|].
        eapply runs_cons; [apply closer_line; auto | apply runs_nil].
  - destruct d as [|kv r].
    + eapply runs_cons; [apply opener_begins; auto|].
      eapply runs_cons; [reflexivity | apply runs_nil].
    + rewrite _iterencode_dict.
      eapply runs_cons; [apply opener_begins; auto|].
      eapply runs_app; [apply runs_newline_item; now left|].
      eapply runs_app.
      * apply (runs_items _ (S n)); [|now right|discriminate].
        eapply Forall_impl; [exact IH|]. intros [k v] Hv q Hq.
        eapply runs_app; [now apply runs_string|].
        unfold _key_separator.
        eapply runs_cons; [reflexivity|].
        eapply runs_cons; [reflexivity|].
        apply Hv. now left.
      * eapply runs_app; [apply runs_newline_close|].
        eapply runs_cons; [apply closer_line; auto | apply runs_nil].
Qed.

Lemma format_json_payload_layout payload :
  two_space_layout (format_json_payload payload) = true.
Proof.
  unfold two_space_layout, format_json_payload.
  rewrite (runs_iterencode payload 0 (LineStart 0 false)); [reflexivity|].
  now right.
Qed.

(** ** The bytes that are not ASCII *)

Lemma keep_non_ascii_app a b :
  keep_non_ascii (a ++ b) = keep_non_ascii a ++ keep_non_ascii b.
Proof.
  induction a as [|c a IH]; simpl; [reflexivity|].
  destruct (non_ascii c); simpl; now rewrite IH.
Qed.

Lemma token_char_ascii c : token_char c = true -> non_ascii c = false.
Proof. each_char c; intros H; try discriminate H; reflexivity. Qed.

Lemma keep_non_ascii_token_chars s :
  all_chars token_char s = true -> keep_non_ascii s = "".
Proof.
  induction s as [|c s IH]; simpl; [reflexivity|].
  intros H. apply andb_prop in H as [Hc Hs].
  now rewrite (token_char_ascii c Hc), IH.
Qed.

Lemma keep_non_ascii_token s : token s = true -> keep_non_ascii s = "".
Proof.
  destruct s; [discriminate|]. apply keep_non_ascii_token_chars.
Qed.

(** A byte that is not ASCII is never escaped. *)
Lemma escape_char_non_ascii c : non_ascii c = true -> escape_char c = str1 c.
Proof. each_char c; intros H; try discriminate H; reflexivity. Qed.

Lemma keep_non_ascii_escape_char c :
  keep_non_ascii (escape_char c) = keep_non_ascii (str1 c).
Proof. each_char c; reflexivity. Qed.

Lemma keep_non_ascii_escape_sub s :
  keep_non_ascii (escape_sub s) = keep_non_ascii s.
Proof.
  induction s as [|c s IH]; simpl; [reflexivity|].
  rewrite keep_non_ascii_app, keep_non_ascii_escape_char, IH. simpl.
  destruct (non_ascii c); reflexivity.
Qed.

Lemma keep_non_ascii_string s :
  keep_non_ascii (py_encode_basestring s) = keep_non_ascii s.
Proof.
  unfold py_encode_basestring. simpl.
  rewrite keep_non_ascii_app, keep_non_ascii_escape_sub. simpl.
  apply append_nil_r.
Qed.

Lemma keep_non_ascii_indent n : keep_non_ascii (str_repeat _indent n) = "".
Proof. induction n as [|n IH]; simpl; auto. Qed.

Lemma keep_non_ascii_newline_indent n :
  keep_non_ascii (newline_indent n) = "".
Proof. unfold newline_indent. simpl. apply keep_non_ascii_indent. Qed.

Lemma join_chunks_no_separator {A} (emit : A -> string) (first : bool) l :
  join_chunks emit "" first l = join_chunks emit "" true l.
Proof. destruct l, first; reflexivity. Qed.

Lemma keep_non_ascii_items {A} (emit : A -> string) (content : A -> string)
    separator (l : list A) :
  keep_non_ascii separator = "" ->
  Forall (fun x => keep_non_ascii (emit x) = content x) l ->
  forall first : bool,
    keep_non_ascii (join_chunks emit separator first l)
    = join_chunks content "" true l.
Proof.
  intros Hsep. induction 1 as [|x l Hx Hl IH]; intros first;
    [reflexivity|].
  cbn [join_chunks]. rewrite !keep_non_ascii_app, Hx, (IH false).
  rewrite (join_chunks_no_separator content false).
  destruct first; [reflexivity | now rewrite Hsep].
Qed.

Lemma keep_non_ascii_iterencode (o : json) :
  forall n, keep_non_ascii (_iterencode o n) = non_ascii_content o.
Proof.
  induction o as [| b | z | f | s | l IH | d IH] using json_nested_ind;
    intros n.
  - reflexivity.
  - destruct b; reflexivity.
  - apply keep_non_ascii_token, token_int_repr.
  - apply keep_non_ascii_token, token_floatstr.
  - apply keep_non_ascii_string.
  - destruct l as [|x r]; [reflexivity|].
    rewrite _iterencode_list.
    rewrite !keep_non_ascii_app, !keep_non_ascii_newline_indent.
    rewrite (keep_non_ascii_items _ non_ascii_content).
    + simpl. now rewrite append_nil_r.
    + unfold _item_separator. simpl. apply keep_non_ascii_newline_indent.
    + eapply Forall_impl; [exact IH|]. cbn beta. auto.
  - destruct d as [|kv r]; [reflexivity|].
    rewrite _iterencode_dict.
    rewrite !keep_non_ascii_app, !keep_non_ascii_newline_indent.
    rewrite (keep_non_ascii_items _
               (fun '(k, v) => keep_non_ascii k ++ non_ascii_content v)).
    + simpl. now rewrite append_nil_r.
    + unfold _item_separator. simpl. apply keep_non_ascii_newline_indent.
    + eapply Forall_impl; [exact IH|]. intros [k v] Hv.
      rewrite !keep_non_ascii_app, keep_non_ascii_string, Hv. reflexivity.
Qed.

(** ** The keys of the encoded text *)

Lemma key_scan_app a b st :
  key_scan (a ++ b) st = key_scan b (key_scan a st).
Proof.
  revert st. induction a as [|c a IH]; intros st; simpl; [reflexivity|].
  apply IH.
Qed.

Lemma key_scan_escape_char c buf found :
  key_scan (escape_char c) (KString buf, found) = (KString (c :: buf), found).
Proof. each_char c; reflexivity. Qed.

Lemma key_scan_escape_sub s buf found :
  key_scan (escape_sub s) (KString buf, found)
  = (KString (rev (list_ascii_of_string s) ++ buf)%list, found).
Proof.
  revert buf. induction s as [|c s IH]; intros buf; simpl; [reflexivity|].
  rewrite key_scan_app, key_scan_escape_char, IH.
  now rewrite <- app_assoc.
Qed.

Lemma key_scan_string s m found :
  quiet m ->
  key_scan (py_encode_basestring s) (m, found)
  = (KAfter (rev (list_ascii_of_string s)), found).
Proof.
  intros Hm. unfold py_encode_basestring.
  assert (H : key_step (m, found) quote_char = (KString [], found)).
  { destruct Hm as [-> | [buf ->]]; reflexivity. }
  cbn [key_scan]. rewrite H, key_scan_app, key_scan_escape_sub.
  rewrite app_nil_r. reflexivity.
Qed.

Lemma token_char_quiet c m found :
  token_char c = true -> quiet m -> key_step (m, found) c = (KCode, found).
Proof.
  intros H [-> | [buf ->]]; each_char c; try discriminate H; reflexivity.
Qed.

Lemma key_scan_token_chars s found :
  all_chars token_char s = true ->
  key_scan s (KCode, found) = (KCode, found).
Proof.
  induction s as [|c s IH]; cbn [key_scan all_chars]; [reflexivity|].
  intros H. apply andb_prop in H as [Hc Hs].
  rewrite (token_char_quiet c KCode found Hc) by now left. auto.
Qed.

Lemma key_scan_token s m found :
  token s = true -> quiet m -> key_scan s (m, found) = (KCode, found).
Proof.
  destruct s as [|c s]; [discriminate|]. cbn [key_scan token all_chars].
  intros H Hm. apply andb_prop in H as [Hc Hs].
  rewrite (token_char_quiet c m found Hc Hm).
  now apply key_scan_token_chars.
Qed.

Lemma key_scan_indent n found :
  key_scan (str_repeat _indent n) (KCode, found) = (KCode, found).
Proof. induction n as [|n IH]; simpl; auto. Qed.

(** A bracket or a comma and what follows it up to the next item. *)
Lemma key_scan_newline_indent n m found :
  quiet m -> key_scan (newline_indent n) (m, found) = (KCode, found).
Proof.
  intros Hm. unfold newline_indent, NL, str1.
  cbn [String.append key_scan].
  replace (key_step (m, found) newline_char) with (KCode, found)
    by (destruct Hm as [-> | [buf ->]]; reflexivity).
  apply key_scan_indent.
Qed.

Lemma text_of_rev s : text_of (rev (list_ascii_of_string s)) = s.
Proof.
  unfold text_of. rewrite rev_involutive.
  apply string_of_list_ascii_of_string.
Qed.

Lemma key_step_structural c m found :
  In c ["["; "]"; "{"; "}"; ","; " "]%char -> quiet m ->
  key_step (m, found) c = (KCode, found).
Proof.
  simpl. intros Hc Hm.
  destruct Hm as [-> | [buf ->]];
    repeat (destruct Hc as [<- | Hc]; [reflexivity|]); destruct Hc.
Qed.

Ltac structural := first [assumption | now left | simpl; auto 10].

Lemma key_scan_items {A} (emit : A -> string) (keys : A -> list string)
    d (l : list A) :
  Forall (fun x => forall m found, quiet m ->
            exists m', quiet m'
              /\ key_scan (emit x) (m, found) = (m', (rev (keys x) ++ found)%list))
    l ->
  forall (first : bool) m found, quiet m ->
    exists m', quiet m'
      /\ key_scan (join_chunks emit (_item_separator ++ newline_indent d)
                     first l) (m, found)
         = (m', (rev (flat_map keys l) ++ found)%list).
Proof.
  induction 1 as [|x l Hx Hl IH]; intros first m found Hm.
  - exists m. auto.
  - cbn [join_chunks flat_map].
    assert (Hsep : exists m0, quiet m0
              /\ key_scan (if first then ""
                           else _item_separator ++ newline_indent d)
                   (m, found) = (m0, found)).
    { destruct first; [exists m; auto|]. exists KCode. split; [now left|].
      unfold _item_separator. cbn [String.append key_scan].
      rewrite key_step_structural by structural.
      apply key_scan_newline_indent. now left. }
    destruct Hsep as (m0 & Hm0 & E0).
    destruct (Hx m0 found Hm0) as (m1 & Hm1 & E1).
    destruct (IH false m1 (rev (keys x) ++ found)%list Hm1) as (m2 & Hm2 & E2).
    exists m2. split; [exact Hm2|].
    rewrite !key_scan_app, E0, E1, E2.
    now rewrite rev_app_distr, <- app_assoc.
Qed.

Lemma key_scan_iterencode (o : json) :
  forall n m found, quiet m ->
    exists m', quiet m'
      /\ key_scan (_iterencode o n) (m, found)
         = (m', (rev (payload_keys o) ++ found)%list).
Proof.
  induction o as [| b | z | f | s | l IH | d IH] using json_nested_ind;
    intros n m found Hm.
  - exists KCode. split; [now left|]. now apply key_scan_token.
  - exists KCode. split; [now left|].
    destruct b; now apply key_scan_token.
  - exists KCode. split; [now left|].
    apply key_scan_token; [apply token_int_repr | exact Hm].
  - exists KCode. split; [now left|].
    apply key_scan_token; [apply token_floatstr | exact Hm].
  - eexists. split; [|now apply key_scan_string]. right. eauto.
  - exists KCode. split; [now left|].
    destruct l as [|x r].
    + cbn [_iterencode key_scan].
      rewrite key_step_structural by structural.
      now rewrite key_step_structural by structural.
    + rewrite _iterencode_list. cbn [String.append key_scan].
      rewrite key_step_structural by structural.
      destruct (key_scan_items (fun value => _iterencode value (S n))
                  payload_keys (S n) (x :: r)) with (first := true)
        (m := KCode) (found := found) as (m1 & Hm1 & E1);
        [|now left|].
      { eapply Forall_impl; [exact IH|]. cbn beta. auto. }
      rewrite !key_scan_app, key_scan_newline_indent by now left.
      rewrite E1, key_scan_newline_indent by exact Hm1.
      cbn [key_scan]. now rewrite key_step_structural by structural.
  - exists KCode. split; [now left|].
    destruct d as [|kv r].
    + cbn [_iterencode key_scan].
      rewrite key_step_structural by structural.
      now rewrite key_step_structural by structural.
    + rewrite _iterencode_dict. cbn [String.append key_scan].
      rewrite key_step_structural by structural.
      destruct (key_scan_items
                  (fun '((key, value) : string * json) =>
                     py_encode_basestring key ++ _key_separator
                     ++ _iterencode value (S n))
                  (fun '(k, v) => k :: payload_keys v) (S n) (kv :: r))
        with (first := true) (m := KCode) (found := found)
        as (m1 & Hm1 & E1); [|now left|].
      { eapply Forall_impl; [exact IH|]. intros [k v] Hv m0 found0 Hm0.
        simpl in Hv.
        destruct (Hv (S n) KCode (k :: found0)) as (m2 & Hm2 & E2);
          [now left|].
        exists m2. split; [exact Hm2|].
        rewrite key_scan_app, key_scan_string by exact Hm0.
        unfold _key_separator. cbn [String.append key_scan].
        cbn [key_step]. cbn [Ascii.eqb Bool.eqb].
        rewrite text_of_rev.
        rewrite key_step_structural by structural.
        rewrite E2. simpl. now rewrite <- app_assoc. }
      rewrite !key_scan_app, key_scan_newline_indent by now left.
      rewrite E1, key_scan_newline_indent by exact Hm1.
      cbn [key_scan]. now rewrite key_step_structural by structural.
Qed.

Lemma format_json_payload_keys payload :
  object_keys (format_json_payload payload) = payload_keys payload.
Proof.
  unfold object_keys, format_json_payload.
  destruct (key_scan_iterencode payload 0 KCode []) as (m & _ & E);
    [now left|].
  rewrite E. simpl. rewrite app_nil_r. apply rev_involutive.
Qed.

Example format_json_payload_nested :
  format_json_payload
    (JList [JInt 1; JList [JBool true; JNull]; JList []; JDict []])
  = "[" ++ NL ++ "  1," ++ NL ++ "  [" ++ NL ++ "    true," ++ NL
    ++ "    null" ++ NL ++ "  ]," ++ NL ++ "  []," ++ NL ++ "  {}" ++ NL
    ++ "]".
Proof. reflexivity. Qed.

Example format_json_payload_object :
  format_json_payload (JDict [("b", JInt 1); ("a", JList [JStr "x"])])
  = "{" ++ NL ++ "  " ++ quoted "b" ++ ": 1," ++ NL
    ++ "  " ++ quoted "a" ++ ": [" ++ NL ++ "    " ++ quoted "x" ++ NL
    ++ "  ]" ++ NL ++ "}".
Proof. reflexivity. Qed.

(** C9. The pretty-printed text of every payload is laid out with two
    spaces for each level of nesting, every item of a container that is
    not empty on a line of its own; it carries the bytes of the payload
    that are not ASCII as they are, none of them escaped; and it carries
    the object keys in the order of the payload's entries, unsorted. *)
Theorem format_json_payload_pretty (payload : json) :
  two_space_layout (format_json_payload payload) = true
  /\ keep_non_ascii (format_json_payload payload)
     = non_ascii_content payload
  /\ (forall c, non_ascii c = true -> escape_char c = str1 c)
  /\ object_keys (format_json_payload payload) = payload_keys payload.
Proof.
  split; [apply format_json_payload_layout|].
  split; [apply keep_non_ascii_iterencode|].
  split; [apply escape_char_non_ascii | apply format_json_payload_keys].
Qed.

(** ** Running the client *)

Lemma build_client_run w : build_client w = (Ok (client_of w), w).
Proof. reflexivity. Qed.

Lemma _request_run self m p ps j w :
  _request self m p ps j w =
    match remote w (sent w) (outbound self m p ps j) with
    | None => (Raise TransportError, add_sent w (outbound self m p ps j))
    | Some r =>
        if is_success r then (Ok r, add_sent w (outbound self m p ps j))
        else (Raise (HTTPStatusError (request r) r),
              add_sent w (outbound self m p ps j))
    end.
Proof.
  unfold _request, bind, client_request, raise_for_status.
  fold (outbound self m p ps j).
  destruct (remote w (sent w) _) as [r|]; [|reflexivity].
  destruct (is_success r); reflexivity.
Qed.

(** The four names against any name. *)
Lemma name_cases (name : string) :
  name = "query_symbols" \/ name = "get_symbol_by_id"
  \/ name = "put_symbol_by_id" \/ name = "list_domains"
  \/ (name <> "query_symbols" /\ name <> "get_symbol_by_id"
      /\ name <> "put_symbol_by_id" /\ name <> "list_domains").
Proof.
  destruct (String.eqb_spec name "query_symbols"); [tauto|].
  destruct (String.eqb_spec name "get_symbol_by_id"); [tauto|].
  destruct (String.eqb_spec name "put_symbol_by_id"); [tauto|].
  destruct (String.eqb_spec name "list_domains"); tauto.
Qed.

Lemma settle_world w call render :
  snd (settle w call render) = add_sent w call.
Proof.
  unfold settle. destruct (remote w (sent w) call) as [r|]; [|reflexivity].
  destruct (is_success r); [|reflexivity].
  destruct (decoded r); reflexivity.
Qed.

Lemma sent_grows (l : list Outbound) call : l <> (l ++ [call])%list.
Proof.
  intros H. apply (f_equal length) in H.
  rewrite length_app in H. simpl in H. lia.
Qed.

(** The call whose answer decides [settle] is the one it sends. *)
Lemma settle_sent w call render call' :
  sent (snd (settle w call render)) = (sent w ++ [call'])%list ->
  call' = call.
Proof.
  rewrite settle_world. simpl. intros H.
  apply app_inj_tail in H. destruct H as [_ H]. congruence.
Qed.

Lemma settle_failure w call render response :
  remote w (sent w) call = Some response ->
  is_success response = false ->
  fst (settle w call render) = Ok [text_content (failure_text response)].
Proof.
  intros Hr Hs. unfold settle. rewrite Hr, Hs. reflexivity.
Qed.

Lemma settle_success w call render response data :
  remote w (sent w) call = Some response ->
  is_success response = true ->
  decoded response = Some data ->
  fst (settle w call render) = Ok [text_content (render data)].
Proof.
  intros Hr Hs Hd. unfold settle. rewrite Hr, Hs, Hd. reflexivity.
Qed.

Section dispatcher_facts.
Variable str_repr : string -> string.

Ltac run_branch :=
  unfold call_tool, bind, try_except_HTTPStatusError, settle,
    query_symbols, get_symbol, put_symbol, list_domains, bind,
    response_json, arguments_getitem, raise, ret;
  rewrite ?build_client_run; cbn [String.eqb Ascii.eqb Bool.eqb];
  rewrite ?_request_run.

Lemma call_tool_query_symbols arguments w :
  call_tool str_repr "query_symbols" arguments w =
    settle w
      (outbound (client_of w) "GET" "/symbol"
         (Some (query_params (arguments_get arguments "symbol_domain")
                  (arguments_get arguments "symbol_tag")
                  (arguments_get arguments "last_symbol_id")
                  (arguments_get arguments "limit"))) None)
      (fun data =>
         (if truthy data then "Query results" else "No symbols returned")
         ++ ":" ++ NL ++ format_json_payload data).
Proof.
  run_branch. unfold query_params.
  destruct (remote w (sent w) _) as [r|]; [|reflexivity].
  destruct (is_success r); [|reflexivity].
  destruct (decoded r); reflexivity.
Qed.

Lemma call_tool_get_symbol_by_id arguments w :
  call_tool str_repr "get_symbol_by_id" arguments w =
    match arguments !! "id" with
    | Some id =>
        settle w
          (outbound (client_of w) "GET"
             ("/symbol/" ++ py_str str_repr id) None None)
          format_json_payload
    | None => (Raise (KeyError "id"), w)
    end.
Proof.
  run_branch.
  destruct (arguments !! "id") as [id|]; [|reflexivity].
  rewrite _request_run.
  destruct (remote w (sent w) _) as [r|]; [|reflexivity].
  destruct (is_success r); [|reflexivity].
  destruct (decoded r); reflexivity.
Qed.

Lemma call_tool_put_symbol_by_id arguments w :
  call_tool str_repr "put_symbol_by_id" arguments w =
    match arguments !! "symbol_id" with
    | Some symbol_id =>
        match arguments !! "symbol" with
        | Some symbol_body =>
            settle w
              (outbound (client_of w) "PUT"
                 ("/save_symbol/" ++ py_str str_repr symbol_id)
                 None (Some symbol_body))
              (fun data =>
                 "Stored symbol " ++ py_str str_repr symbol_id ++ ":"
                 ++ NL ++ format_json_payload data)
        | None => (Raise (KeyError "symbol"), w)
        end
    | None => (Raise (KeyError "symbol_id"), w)
    end.
Proof.
  run_branch.
  destruct (arguments !! "symbol_id") as [symbol_id|]; [|reflexivity].
  destruct (arguments !! "symbol") as [symbol_body|]; [|reflexivity].
  rewrite _request_run.
  destruct (remote w (sent w) _) as [r|]; [|reflexivity].
  destruct (is_success r); [|reflexivity].
  destruct (decoded r); reflexivity.
Qed.

Lemma call_tool_list_domains arguments w :
  call_tool str_repr "list_domains" arguments w =
    settle w (outbound (client_of w) "GET" "/domains" None None)
      (fun data => "Available domains:" ++ NL ++ format_json_payload data).
Proof.
  run_branch.
  destruct (remote w (sent w) _) as [r|]; [|reflexivity].
  destruct (is_success r); [|reflexivity].
  destruct (decoded r); reflexivity.
Qed.

Lemma call_tool_other name arguments w :
  name <> "query_symbols" -> name <> "get_symbol_by_id" ->
  name <> "put_symbol_by_id" -> name <> "list_domains" ->
  call_tool str_repr name arguments w =
    (Ok [text_content ("Unknown tool: " ++ name)], w).
Proof.
  intros H1 H2 H3 H4.
  apply String.eqb_neq in H1, H2, H3, H4.
  unfold call_tool, bind, try_except_HTTPStatusError.
  rewrite build_client_run, H1, H2, H3, H4. reflexivity.
Qed.

End dispatcher_facts.

(** ** The dispatcher *)

Section dispatcher_claims.
Variable str_repr : string -> string.

(** C1. Whenever the call that a tool invocation sends is answered with
    a status outside 2xx, the HTTP-status error of the client is caught:
    the invocation returns, as its only result, one text item reading
    "Request to METHOD URL failed with status CODE: body", made of the
    failed request's method and URL and of the response's status code
    and body. *)
Theorem http_status_error_becomes_text
    (name : string) (arguments : gmap string json) (w : World)
    (call : Outbound) (response : httpx_Response) :
  sent (snd (call_tool str_repr name arguments w))
    = (sent w ++ [call])%list ->
  remote w (sent w) call = Some response ->
  is_success response = false ->
  fst (call_tool str_repr name arguments w) =
    Ok [ {| content_type := "text";
            content_text :=
              "Request to " ++ method (request response) ++ " "
              ++ url (request response) ++ " failed with status "
              ++ int_repr (status_code response) ++ ": "
              ++ text response |} ].
Proof.
  intros Hsent Hanswer Hstatus.
  change (fst (call_tool str_repr name arguments w)
          = Ok [text_content (failure_text response)]).
  destruct (name_cases name) as [-> | [-> | [-> | [-> | (H1 & H2 & H3 & H4)]]]].
  - rewrite call_tool_query_symbols in *.
    apply settle_sent in Hsent; subst call.
    eapply settle_failure; eassumption.
  - rewrite call_tool_get_symbol_by_id in *.
    destruct (arguments !! "id").
    + apply settle_sent in Hsent; subst call.
      eapply settle_failure; eassumption.
    + simpl in Hsent. destruct (sent_grows _ _ Hsent).
  - rewrite call_tool_put_symbol_by_id in *.
    destruct (arguments !! "symbol_id");
      [destruct (arguments !! "symbol")|].
    + apply settle_sent in Hsent; subst call.
      eapply settle_failure; eassumption.
    + simpl in Hsent. destruct (sent_grows _ _ Hsent).
    + simpl in Hsent. destruct (sent_grows _ _ Hsent).
  - rewrite call_tool_list_domains in *.
    apply settle_sent in Hsent; subst call.
    eapply settle_failure; eassumption.
  - rewrite call_tool_other in Hsent by assumption.
    simpl in Hsent. destruct (sent_grows _ _ Hsent).
Qed.

(** C2. A tool name that is none of the four yields, whatever the
    arguments, a successful result of exactly one text item, "Unknown
    tool: " followed by the name; nothing is sent. *)
Theorem unknown_tool_text
    (name : string) (arguments : gmap string json) (w : World) :
  name <> "query_symbols" -> name <> "get_symbol_by_id" ->
  name <> "put_symbol_by_id" -> name <> "list_domains" ->
  call_tool str_repr name arguments w =
    (Ok [ {| content_type := "text";
             content_text := "Unknown tool: " ++ name |} ], w).
Proof. apply call_tool_other. Qed.

(** C4. A [query_symbols] invocation whose call comes back with a
    payload answers "Query results:" and a line break before the
    pretty-printed payload when the payload is truthy, and "No symbols
    returned:" and a line break before it otherwise, as for [0] and
    [false]. *)
Theorem query_symbols_result_text
    (arguments : gmap string json) (w : World) (call : Outbound)
    (response : httpx_Response) (data : json) :
  sent (snd (call_tool str_repr "query_symbols" arguments w))
    = (sent w ++ [call])%list ->
  remote w (sent w) call = Some response ->
  is_success response = true ->
  decoded response = Some data ->
  fst (call_tool str_repr "query_symbols" arguments w) =
    Ok [ {| content_type := "text";
            content_text :=
              (if truthy data then "Query results:" ++ NL
               else "No symbols returned:" ++ NL)
              ++ format_json_payload data |} ]
  /\ truthy (JInt 0) = false /\ truthy (JBool false) = false.
Proof.
  intros Hsent Hanswer Hstatus Hdata. split; [|split; reflexivity].
  rewrite call_tool_query_symbols in *.
  apply settle_sent in Hsent; subst call.
  erewrite settle_success by eassumption.
  destruct (truthy data); reflexivity.
Qed.

(** C6. A [get_symbol_by_id] invocation that has an "id" and whose call
    comes back with a payload answers the pretty-printed payload and
    nothing before it. *)
Theorem get_symbol_by_id_result_text
    (arguments : gmap string json) (w : World) (id : json)
    (call : Outbound) (response : httpx_Response) (data : json) :
  arguments !! "id" = Some id ->
  sent (snd (call_tool str_repr "get_symbol_by_id" arguments w))
    = (sent w ++ [call])%list ->
  remote w (sent w) call = Some response ->
  is_success response = true ->
  decoded response = Some data ->
  fst (call_tool str_repr "get_symbol_by_id" arguments w) =
    Ok [ {| content_type := "text";
            content_text := format_json_payload data |} ].
Proof.
  intros Hid Hsent Hanswer Hstatus Hdata.
  rewrite call_tool_get_symbol_by_id in *. rewrite Hid in *.
  apply settle_sent in Hsent; subst call.
  erewrite settle_success by eassumption. reflexivity.
Qed.

(** C7. A [put_symbol_by_id] invocation that has a "symbol_id" and a
    "symbol" and whose call comes back with a payload answers "Stored
    symbol ", the symbol id as an f-string prints it, a colon and a line
    break, then the pretty-printed payload. *)
Theorem put_symbol_by_id_result_text
    (arguments : gmap string json) (w : World) (symbol_id symbol : json)
    (call : Outbound) (response : httpx_Response) (data : json) :
  arguments !! "symbol_id" = Some symbol_id ->
  arguments !! "symbol" = Some symbol ->
  sent (snd (call_tool str_repr "put_symbol_by_id" arguments w))
    = (sent w ++ [call])%list ->
  remote w (sent w) call = Some response ->
  is_success response = true ->
  decoded response = Some data ->
  fst (call_tool str_repr "put_symbol_by_id" arguments w) =
    Ok [ {| content_type := "text";
            content_text :=
              "Stored symbol " ++ py_str str_repr symbol_id ++ ":" ++ NL
              ++ format_json_payload data |} ].
Proof.
  intros Hid Hsym Hsent Hanswer Hstatus Hdata.
  rewrite call_tool_put_symbol_by_id in *. rewrite Hid, Hsym in *.
  apply settle_sent in Hsent; subst call.
  erewrite settle_success by eassumption. reflexivity.
Qed.

(** C8. Without "id", [get_symbol_by_id] ends in the key-lookup failure
    for "id"; without "symbol_id", [put_symbol_by_id] ends in the one for
    "symbol_id", and with it but without "symbol" in the one for
    "symbol".  The failure leaves the invocation uncaught, before
    anything is sent. *)
Theorem missing_argument_raises_KeyError
    (arguments : gmap string json) (w : World) :
  (arguments !! "id" = None ->
   call_tool str_repr "get_symbol_by_id" arguments w
     = (Raise (KeyError "id"), w))
  /\ (arguments !! "symbol_id" = None ->
      call_tool str_repr "put_symbol_by_id" arguments w
        = (Raise (KeyError "symbol_id"), w))
  /\ (is_Some (arguments !! "symbol_id") ->
      arguments !! "symbol" = None ->
      call_tool str_repr "put_symbol_by_id" arguments w
        = (Raise (KeyError "symbol"), w)).
Proof.
  split; [|split].
  - intros H. rewrite call_tool_get_symbol_by_id, H. reflexivity.
  - intros H. rewrite call_tool_put_symbol_by_id, H. reflexivity.
  - intros [v Hv] H. rewrite call_tool_put_symbol_by_id, Hv, H.
    reflexivity.
Qed.
End dispatcher_claims.

(** ** The query parameters *)

Lemma not_None_iff (v : json) : negb (is_None v) = true <-> v <> JNull.
Proof. destruct v; simpl; split; congruence. Qed.

Lemma query_params_In a b c d key value :
  In (key, value) (query_params a b c d) <->
  In (key, value)
    [("symbol_domain", a); ("symbol_tag", b); ("last_symbol_id", c);
     ("limit", d)]
  /\ value <> JNull.
Proof.
  unfold query_params. rewrite filter_In, not_None_iff. reflexivity.
Qed.

Lemma query_symbols_world self a b c d w :
  snd (query_symbols self a b c d w) =
    add_sent w
      (outbound self "GET" "/symbol" (Some (query_params a b c d)) None).
Proof.
  unfold query_symbols, bind. rewrite _request_run.
  fold (query_params a b c d).
  destruct (remote w (sent w) _) as [r|]; [|reflexivity].
  destruct (is_success r); [|reflexivity].
  unfold response_json. destruct (decoded r); reflexivity.
Qed.

Section query_claims.
Variable str_repr : string -> string.

(** C3. The call that a [query_symbols] invocation sends is a GET whose
    query parameters hold a key exactly when it is one of the four
    optional arguments and the invocation gives it a value that is not
    null; an argument that is absent or null is left out, and no
    parameter carries null. *)
Theorem query_params_present_only
    (arguments : gmap string json) (w : World) :
  exists params,
    snd (call_tool str_repr "query_symbols" arguments w) =
      add_sent w
        (outbound (client_of w) "GET" "/symbol" (Some params) None)
    /\ (forall key,
          In key (map fst params) <->
          In key ["symbol_domain"; "symbol_tag"; "last_symbol_id"; "limit"]
          /\ exists value,
               arguments !! key = Some value /\ value <> JNull)
    /\ (forall key value,
          In (key, value) params ->
          arguments !! key = Some value /\ value <> JNull).
Proof.
  eexists. split.
  { rewrite call_tool_query_symbols. apply settle_world. }
  assert (Hget : forall key value,
             arguments_get arguments key = value -> value <> JNull ->
             arguments !! key = Some value).
  { unfold arguments_get. intros key value.
    destruct (arguments !! key); congruence. }
  assert (Hin : forall key value,
             In (key, value)
               (query_params (arguments_get arguments "symbol_domain")
                  (arguments_get arguments "symbol_tag")
                  (arguments_get arguments "last_symbol_id")
                  (arguments_get arguments "limit")) <->
             In key ["symbol_domain"; "symbol_tag"; "last_symbol_id";
                     "limit"]
             /\ arguments !! key = Some value /\ value <> JNull).
  { intros key value. rewrite query_params_In. simpl. split.
    - intros [[H | [H | [H | [H | []]]]] Hv];
        injection H as <- Heq; auto 10.
    - intros [[<- | [<- | [<- | [<- | []]]]] [Hk Hv]];
        (split; [|exact Hv]); unfold arguments_get; rewrite Hk; auto. }
  split.
  - intros key. rewrite in_map_iff. split.
    + intros [[k v] [Hk Hkv]]. simpl in Hk. subst k.
      apply Hin in Hkv. destruct Hkv as (? & ? & ?). eauto.
    + intros [Hk [v [Hv Hn]]]. exists (key, v). split; [reflexivity|].
      apply Hin. auto.
  - intros key value Hkv. apply Hin in Hkv. tauto.
Qed.
End query_claims.

(** C10. The parameters of the call that [query_symbols] sends are the
    four arguments that are not null, and only null is dropped: an empty
    string given for the domain, the tag or the cursor, or a limit of
    zero, is among the parameters. *)
Theorem query_params_keep_falsy
    (self : SymbolStoreClient)
    (symbol_domain symbol_tag last_symbol_id limit : json) (w : World) :
  exists params,
    snd (query_symbols self symbol_domain symbol_tag last_symbol_id limit w)
      = add_sent w (outbound self "GET" "/symbol" (Some params) None)
    /\ (forall key value,
          In (key, value) params <->
          In (key, value)
            [("symbol_domain", symbol_domain); ("symbol_tag", symbol_tag);
             ("last_symbol_id", last_symbol_id); ("limit", limit)]
          /\ value <> JNull)
    /\ (symbol_domain = JStr "" -> In ("symbol_domain", JStr "") params)
    /\ (symbol_tag = JStr "" -> In ("symbol_tag", JStr "") params)
    /\ (last_symbol_id = JStr "" -> In ("last_symbol_id", JStr "") params)
    /\ (limit = JInt 0 -> In ("limit", JInt 0) params).
Proof.
  eexists. split; [apply query_symbols_world|].
  split; [intros; apply query_params_In|].
  repeat split; intros ->; apply query_params_In; simpl;
    (split; [tauto | discriminate]).
Qed.

(** ** The tool catalogue *)

Lemma summary_of_operation spec path verb default op :
  operation spec path verb = Some op ->
  summary spec path verb default =
    Ok (match assoc_lookup "summary" op with
        | Some v => v
        | None => JStr default
        end).
Proof.
  unfold operation, summary. intros H.
  destruct spec as [| | | | |?|top]; try discriminate. simpl.
  destruct (assoc_lookup "paths" top) as [[| | | | |?|paths]|];
    try discriminate. simpl.
  destruct (assoc_lookup path paths) as [[| | | | |?|item]|];
    try discriminate. simpl.
  destruct (assoc_lookup verb item) as [[| | | | |?|op']|];
    try discriminate. simpl.
  injection H as ->. destruct (assoc_lookup "summary" op); reflexivity.
Qed.

Lemma symbol_schema_lookup spec symbol :
  symbol_schema spec = Some symbol ->
  (components <-? getitem spec "components" ;;
   schemas <-? getitem components "schemas" ;;
   getitem schemas "Symbol") = Ok symbol.
Proof.
  unfold symbol_schema. intros H.
  destruct spec as [| | | | |?|top]; try discriminate. simpl.
  destruct (assoc_lookup "components" top) as [[| | | | |?|components]|];
    try discriminate. simpl.
  destruct (assoc_lookup "schemas" components) as [[| | | | |?|schemas]|];
    try discriminate. simpl.
  rewrite H. reflexivity.
Qed.

(** A summary that is a string or null makes a valid description. *)
Lemma Tool_init_text name op default schema :
  match assoc_lookup "summary" op with
  | None | Some (JStr _) | Some JNull => true
  | Some _ => false
  end = true ->
  exists d,
    Tool_init name
      (match assoc_lookup "summary" op with
       | Some v => v
       | None => JStr default
       end) schema
    = Ok {| name := name; description := d; inputSchema := schema |}.
Proof.
  destruct (assoc_lookup "summary" op) as [[| | | | | |]|]; simpl;
    intros H; try discriminate; eauto.
Qed.

(** C5, as the code has it.  For every interface description that
    contains the four required paths with their operations, whose
    summaries are strings or null where present, and that contains the
    schema component Symbol, the builder returns exactly four tool
    definitions, named in this order [query_symbols], [get_symbol_by_id],
    [put_symbol_by_id], [list_domains]; the builder is a function of the
    description alone. *)
Theorem build_tools_four_names (spec symbol : json) :
  has_required_paths spec = true ->
  summaries_are_text spec = true ->
  symbol_schema spec = Some symbol ->
  exists tools,
    build_tools_from_spec spec = Ok tools
    /\ map name tools = tool_names
    /\ length tools = 4.
Proof.
  unfold has_required_paths, summaries_are_text, required_paths.
  cbn [forallb]. rewrite !andb_true_r.
  intros Hp Ht Hs.
  destruct (operation spec "/symbol" "get") as [o1|] eqn:E1;
    [|discriminate].
  destruct (operation spec "/symbol/{id}" "get") as [o2|] eqn:E2;
    [|discriminate].
  destruct (operation spec "/save_symbol/{symbol_id}" "put") as [o3|] eqn:E3;
    [|discriminate].
  destruct (operation spec "/domains" "get") as [o4|] eqn:E4;
    [|discriminate].
  clear Hp. apply andb_prop in Ht as [T1 Ht].
  apply andb_prop in Ht as [T2 Ht]. apply andb_prop in Ht as [T3 T4].
  apply symbol_schema_lookup in Hs.
  unfold outcome_bind in Hs.
  unfold build_tools_from_spec.
  rewrite (summary_of_operation _ _ _ _ _ E1),
    (summary_of_operation _ _ _ _ _ E2),
    (summary_of_operation _ _ _ _ _ E3),
    (summary_of_operation _ _ _ _ _ E4).
  cbn [outcome_bind].
  destruct (Tool_init_text "query_symbols" o1 "Query symbols"
              (JDict
         [("type", JStr "object");
          ("properties",
            JDict
              [("symbol_domain", field "string" "Filter by domain");
               ("symbol_tag", field "string" "Filter by tag");
               ("last_symbol_id", field "string" "Start after ID");
               ("limit", field "integer" "Maximum results")])]) T1)
    as [d1 ->].
  cbn [outcome_bind].
  edestruct (Tool_init_text "get_symbol_by_id" o2 "Get symbol by ID")
    as [d2 ->]; [exact T2|].
  cbn [outcome_bind].
  destruct (getitem spec "components") as [components|]; [|discriminate].
  cbn [outcome_bind] in *.
  destruct (getitem components "schemas") as [schemas|]; [|discriminate].
  cbn [outcome_bind] in *.
  rewrite Hs. cbn [outcome_bind].
  edestruct (Tool_init_text "put_symbol_by_id" o3 "Save symbol")
    as [d3 ->]; [exact T3|].
  cbn [outcome_bind].
  edestruct (Tool_init_text "list_domains" o4 "List symbol domains")
    as [d4 ->]; [exact T4|].
  cbn [outcome_bind].
  eexists. split; [reflexivity|]. split; reflexivity.
Qed.

(** C5, as the claim has it, fails on the description above: the four
    paths are there, and the builder ends in the lookup failure for
    "components". *)
Lemma build_tools_needs_schema :
  has_required_paths spec_without_components = true
  /\ build_tools_from_spec spec_without_components
     = Raise (KeyError "components")
  /\ ~ exists tools,
         build_tools_from_spec spec_without_components = Ok tools.
Proof.
  split; [reflexivity|]. split; [reflexivity|].
  intros [tools H]. discriminate H.
Qed.

(** ** The properties at sample inputs *)

(** The scenario of the test suite: a 404 with body "not found". *)
Example not_found_text :
  fst (call_tool sample_str_repr "list_domains" ∅
         (answering response_not_found))
  = Ok [text_content
          "Request to GET http://example.com/domains failed with status 404: not found"].
Proof. reflexivity. Qed.

Lemma http_status_error_becomes_text_witness :
  is_success response_not_found = false
  /\ fst (call_tool sample_str_repr "list_domains" ∅
            (answering response_not_found))
     = Ok [text_content (failure_text response_not_found)].
Proof.
  split; [reflexivity|].
  apply (http_status_error_becomes_text sample_str_repr "list_domains" ∅
           (answering response_not_found)
           (outbound (client_of (answering response_not_found))
              "GET" "/domains" None None)
           response_not_found); reflexivity.
Defined.

Lemma unknown_tool_text_witness :
  call_tool sample_str_repr "foo" ∅ (answering response_not_found)
  = (Ok [text_content "Unknown tool: foo"], answering response_not_found).
Proof.
  apply (unknown_tool_text sample_str_repr "foo" ∅
           (answering response_not_found)); discriminate.
Defined.

Lemma query_symbols_result_text_witness :
  truthy (JInt 0) = false
  /\ fst (call_tool sample_str_repr "query_symbols" ∅
            (answering response_zero))
     = Ok [text_content ("No symbols returned:" ++ NL ++ "0")].
Proof.
  split; [reflexivity|].
  apply (query_symbols_result_text sample_str_repr ∅
           (answering response_zero)
           (outbound (client_of (answering response_zero))
              "GET" "/symbol" (Some []) None)
           response_zero (JInt 0)); reflexivity.
Defined.

Lemma get_symbol_by_id_result_text_witness :
  fst (call_tool sample_str_repr "get_symbol_by_id" {[ "id" := JStr "s1" ]}
         (answering response_numbers))
  = Ok [text_content (format_json_payload (JList [JInt 7; JInt 8]))].
Proof.
  apply (get_symbol_by_id_result_text sample_str_repr
           {[ "id" := JStr "s1" ]} (answering response_numbers) (JStr "s1")
           (outbound (client_of (answering response_numbers))
              "GET" "/symbol/s1" None None)
           response_numbers (JList [JInt 7; JInt 8])); reflexivity.
Defined.

Lemma put_symbol_by_id_result_text_witness :
  fst (call_tool sample_str_repr "put_symbol_by_id"
         {[ "symbol_id" := JStr "s1"; "symbol" := JDict [] ]}
         (answering response_numbers))
  = Ok [text_content
          ("Stored symbol s1:" ++ NL
           ++ format_json_payload (JList [JInt 7; JInt 8]))].
Proof.
  apply (put_symbol_by_id_result_text sample_str_repr
           {[ "symbol_id" := JStr "s1"; "symbol" := JDict [] ]}
           (answering response_numbers) (JStr "s1") (JDict [])
           (outbound (client_of (answering response_numbers))
              "PUT" "/save_symbol/s1" None (Some (JDict [])))
           response_numbers (JList [JInt 7; JInt 8])); reflexivity.
Defined.

Lemma missing_argument_raises_KeyError_witness :
  call_tool sample_str_repr "get_symbol_by_id" {[ "symbol_id" := JStr "s1" ]}
    (answering response_numbers)
  = (Raise (KeyError "id"), answering response_numbers)
  /\ call_tool sample_str_repr "put_symbol_by_id"
       {[ "symbol_id" := JStr "s1" ]} (answering response_numbers)
     = (Raise (KeyError "symbol"), answering response_numbers)
  /\ call_tool sample_str_repr "put_symbol_by_id" {[ "id" := JStr "s1" ]}
       (answering response_numbers)
     = (Raise (KeyError "symbol_id"), answering response_numbers).
Proof.
  split; [|split].
  - apply (proj1 (missing_argument_raises_KeyError sample_str_repr
                    {[ "symbol_id" := JStr "s1" ]}
                    (answering response_numbers))).
    reflexivity.
  - apply (proj2 (proj2 (missing_argument_raises_KeyError sample_str_repr
                           {[ "symbol_id" := JStr "s1" ]}
                           (answering response_numbers)))).
    + exists (JStr "s1"). reflexivity.
    + reflexivity.
  - apply (proj1 (proj2 (missing_argument_raises_KeyError sample_str_repr
                           {[ "id" := JStr "s1" ]}
                           (answering response_numbers)))).
    reflexivity.
Defined.

Lemma query_params_keep_falsy_witness :
  exists params,
    snd (query_symbols (client_of (answering response_zero))
           (JStr "") JNull JNull (JInt 0) (answering response_zero))
    = add_sent (answering response_zero)
        (outbound (client_of (answering response_zero)) "GET" "/symbol"
           (Some params) None)
    /\ In ("symbol_domain", JStr "") params
    /\ In ("limit", JInt 0) params
    /\ ~ In "symbol_tag" (map fst params).
Proof.
  destruct (query_params_keep_falsy (client_of (answering response_zero))
              (JStr "") JNull JNull (JInt 0) (answering response_zero))
    as (params & Hw & Hin & Hd & _ & _ & Hl).
  exists params. split; [exact Hw|]. split; [now apply Hd|].
  split; [now apply Hl|].
  intros H. apply in_map_iff in H as [[k v] [Hk Hkv]].
  simpl in Hk. subst k. apply Hin in Hkv as [Hkv Hv].
  simpl in Hkv.
  destruct Hkv as [E | [E | [E | [E | []]]]]; inversion E; congruence.
Defined.

Lemma build_tools_four_names_witness :
  exists tools,
    build_tools_from_spec spec_with_schema = Ok tools
    /\ map name tools = tool_names
    /\ length tools = 4.
Proof.
  apply (build_tools_four_names spec_with_schema
           (JDict [("type", JStr "object")])); reflexivity.
Defined.

(** * Further properties of the program *)

(** ** The client that a process builds *)

Lemma rstrip_split chars s :
  exists t,
    s = rstrip chars s ++ t
    /\ all_chars (fun c => contains_char c chars) t = true
    /\ match last_char (rstrip chars s) with
       | Some c => contains_char c chars = false
       | None => True
       end.
Proof.
  induction s as [|c r IH]; [exists ""; simpl; auto|].
  destruct IH as (t & Hr & Ht & Hlast). cbn [rstrip].
  destruct (rstrip chars r) as [|c' r'] eqn:E.
  - simpl in Hr. subst t.
    destruct (contains_char c chars) eqn:Hc.
    + exists (String c r). simpl. rewrite Hc, Ht. auto.
    + exists r. simpl. rewrite Hc. auto.
  - exists t. split; [simpl; now rewrite Hr at 1|]. split; [exact Ht|].
    exact Hlast.
Qed.

Lemma slashes_repeat t :
  all_chars (fun c => contains_char c "/") t = true ->
  exists n, t = str_repeat "/" n.
Proof.
  induction t as [|c t IH]; [exists 0%nat; reflexivity|].
  simpl. intros H. apply andb_prop in H as [Hc Ht].
  destruct (IH Ht) as [n ->]. exists (S n). simpl.
  destruct (Ascii.eqb_spec c "/"%char) as [->|]; [reflexivity|discriminate].
Qed.

(** X1. The client of an invocation is built without failure and without
    effect; its base URL is the configured one (the environment variable
    when set, the default otherwise) less its trailing slashes, all of
    them and nothing else. *)
Theorem build_client_base_url (w : World) :
  exists client n,
    build_client w = (Ok client, w)
    /\ configured_base_url w = base_url client ++ str_repeat "/" n
    /\ last_char (base_url client) <> Some "/"%char.
Proof.
  exists (client_of w).
  destruct (rstrip_split "/" (configured_base_url w)) as (t & Hs & Ht & Hl).
  destruct (slashes_repeat t Ht) as [n ->].
  exists n. split; [reflexivity|]. split; [exact Hs|].
  change (base_url (client_of w)) with (rstrip "/" (configured_base_url w)).
  destruct (last_char (rstrip "/" (configured_base_url w))) as [c|];
    [|discriminate].
  intros [= ->]. discriminate Hl.
Qed.

(** X2. The headers of that client are [Accept: application/json] and,
    exactly when the API key variable is set to a string that is not
    empty, [x-api-key] with that key; there is no other header. *)
Theorem build_client_headers (w : World) :
  exists client,
    build_client w = (Ok client, w)
    /\ In ("Accept", "application/json") (headers client)
    /\ (forall key,
          In ("x-api-key", key) (headers client) <->
          environ w !! "SYMBOL_STORE_API_KEY" = Some key /\ key <> "")
    /\ (forall h v,
          In (h, v) (headers client) -> h = "Accept" \/ h = "x-api-key").
Proof.
  exists (client_of w). split; [reflexivity|].
  unfold client_of, SymbolStoreClient_init. cbn [headers].
  destruct (environ w !! "SYMBOL_STORE_API_KEY") as [k|].
  - destruct (String.eqb_spec k "") as [->|Hk]; simpl.
    + split; [auto|]. split.
      * intros key. split.
        -- intros [H | []]. discriminate H.
        -- intros [[= <-] H]. congruence.
      * intros h v [[= <- <-] | []]. auto.
    + split; [auto|]. split.
      * intros key. split.
        -- intros [H | [[= <-] | []]]; [discriminate H | auto].
        -- intros [[= <-] _]. auto.
      * intros h v [[= <- <-] | [[= <- <-] | []]]; auto.
  - simpl. split; [auto|]. split.
    + intros key. split.
      * intros [H | []]. discriminate H.
      * intros [H _]. discriminate H.
    + intros h v [[= <- <-] | []]. auto.
Qed.

(** ** One invocation, one call *)

Section dispatcher_more.
Variable str_repr : string -> string.

(** X3. An invocation sends at most one call, after those sent before,
    and changes nothing else of the world; the call it sends is made
    under the base URL and the headers of the client built for the
    invocation, with the timeout of ten seconds. *)
Theorem call_tool_sends_at_most_one
    (name : string) (arguments : gmap string json) (w : World) :
  environ (snd (call_tool str_repr name arguments w)) = environ w
  /\ remote (snd (call_tool str_repr name arguments w)) = remote w
  /\ (sent (snd (call_tool str_repr name arguments w)) = sent w
      \/ exists call,
           sent (snd (call_tool str_repr name arguments w))
             = (sent w ++ [call])%list
           /\ out_base_url call = base_url (client_of w)
           /\ out_headers call = headers (client_of w)
           /\ out_timeout call = FFinite G1 [G0; GPoint; G0]).
Proof.
  assert (Hsettle : forall call render,
             out_base_url call = base_url (client_of w) ->
             out_headers call = headers (client_of w) ->
             out_timeout call = FFinite G1 [G0; GPoint; G0] ->
             environ (snd (settle w call render)) = environ w
             /\ remote (snd (settle w call render)) = remote w
             /\ (sent (snd (settle w call render)) = sent w
                 \/ exists call',
                      sent (snd (settle w call render))
                        = (sent w ++ [call'])%list
                      /\ out_base_url call' = base_url (client_of w)
                      /\ out_headers call' = headers (client_of w)
                      /\ out_timeout call' = FFinite G1 [G0; GPoint; G0])).
  { intros call render H1 H2 H3. rewrite settle_world.
    split; [reflexivity|]. split; [reflexivity|]. right. exists call. auto. }
  destruct (name_cases name)
    as [-> | [-> | [-> | [-> | (H1 & H2 & H3 & H4)]]]].
  - rewrite call_tool_query_symbols. apply Hsettle; reflexivity.
  - rewrite call_tool_get_symbol_by_id.
    destruct (arguments !! "id"); [apply Hsettle; reflexivity | simpl; auto].
  - rewrite call_tool_put_symbol_by_id.
    destruct (arguments !! "symbol_id");
      [destruct (arguments !! "symbol")|];
      [apply Hsettle; reflexivity | simpl; auto | simpl; auto].
  - rewrite call_tool_list_domains. apply Hsettle; reflexivity.
  - rewrite call_tool_other by assumption. simpl. auto.
Qed.


(** X5. Only the HTTP-status error is turned into text.  When the call of
    an invocation gets no answer, the transport failure leaves the
    invocation as an exception, and so does the decoding failure when the
    answer is 2xx and its body is no JSON. *)
Theorem other_failures_escape
    (name : string) (arguments : gmap string json) (w : World)
    (call : Outbound) :
  sent (snd (call_tool str_repr name arguments w))
    = (sent w ++ [call])%list ->
  (remote w (sent w) call = None ->
   fst (call_tool str_repr name arguments w) = Raise TransportError)
  /\ (forall response,
        remote w (sent w) call = Some response ->
        is_success response = true ->
        decoded response = None ->
        fst (call_tool str_repr name arguments w) = Raise JSONDecodeError).
Proof.
  assert (Hsettle : forall call0 render,
             sent (snd (settle w call0 render)) = (sent w ++ [call])%list ->
             (remote w (sent w) call = None ->
              fst (settle w call0 render) = Raise TransportError)
             /\ (forall response,
                   remote w (sent w) call = Some response ->
                   is_success response = true ->
                   decoded response = None ->
                   fst (settle w call0 render) = Raise JSONDecodeError)).
  { intros call0 render Hs. apply settle_sent in Hs. subst call.
    unfold settle. split.
    - intros ->. reflexivity.
    - intros response -> -> ->. reflexivity. }
  intros Hsent.
  destruct (name_cases name)
    as [-> | [-> | [-> | [-> | (H1 & H2 & H3 & H4)]]]].
  - rewrite call_tool_query_symbols in *. now apply Hsettle.
  - rewrite call_tool_get_symbol_by_id in *.
    destruct (arguments !! "id"); [now apply Hsettle|].
    simpl in Hsent. destruct (sent_grows _ _ Hsent).
  - rewrite call_tool_put_symbol_by_id in *.
    destruct (arguments !! "symbol_id");
      [destruct (arguments !! "symbol")|].
    + now apply Hsettle.
    + simpl in Hsent. destruct (sent_grows _ _ Hsent).
    + simpl in Hsent. destruct (sent_grows _ _ Hsent).
  - rewrite call_tool_list_domains in *. now apply Hsettle.
  - rewrite call_tool_other in Hsent by assumption.
    simpl in Hsent. destruct (sent_grows _ _ Hsent).
Qed.



(** X8. A tool reads only its own arguments: two invocations of one tool
    whose arguments agree on the keys that the tool reads do the same and
    answer the same, whatever else the arguments hold. *)
Theorem call_tool_reads_only
    (name : string) (arguments arguments' : gmap string json) (w : World) :
  (forall key, In key (tool_reads name) ->
     arguments !! key = arguments' !! key) ->
  call_tool str_repr name arguments w = call_tool str_repr name arguments' w.
Proof.
  intros Hagree.
  destruct (name_cases name)
    as [-> | [-> | [-> | [-> | (H1 & H2 & H3 & H4)]]]].
  - rewrite !call_tool_query_symbols. unfold arguments_get.
    rewrite <- (Hagree "symbol_domain"), <- (Hagree "symbol_tag"),
      <- (Hagree "last_symbol_id"), <- (Hagree "limit") by (simpl; auto).
    reflexivity.
  - rewrite !call_tool_get_symbol_by_id.
    rewrite <- (Hagree "id") by (simpl; auto). reflexivity.
  - rewrite !call_tool_put_symbol_by_id.
    rewrite <- (Hagree "symbol_id"), <- (Hagree "symbol") by (simpl; auto).
    reflexivity.
  - rewrite !call_tool_list_domains. reflexivity.
  - rewrite !call_tool_other by assumption. reflexivity.
Qed.
End dispatcher_more.

(** ** The catalogue, read backwards *)

Lemma summary_inv spec path verb default v :
  summary spec path verb default = Ok v ->
  exists op,
    operation spec path verb = Some op
    /\ v = match assoc_lookup "summary" op with
           | Some x => x
           | None => JStr default
           end.
Proof.
  unfold summary, operation.
  destruct spec as [| | | | |?|top]; try discriminate. simpl.
  destruct (assoc_lookup "paths" top) as [[| | | | |?|paths]|];
    try discriminate. simpl.
  destruct (assoc_lookup path paths) as [[| | | | |?|item]|];
    try discriminate. simpl.
  destruct (assoc_lookup verb item) as [[| | | | |?|op]|];
    try discriminate. simpl.
  intros H. exists op. split; [reflexivity|].
  destruct (assoc_lookup "summary" op); congruence.
Qed.

Lemma Tool_init_inv tool op default schema t :
  Tool_init tool
    (match assoc_lookup "summary" op with
     | Some x => x
     | None => JStr default
     end) schema = Ok t ->
  summary_is_text op = true
  /\ t = {| name := tool; description := expected_description op default;
            inputSchema := schema |}.
Proof.
  unfold summary_is_text, expected_description.
  destruct (assoc_lookup "summary" op) as [[| | | | | |]|]; simpl;
    intros H; try discriminate H; injection H as <-; auto.
Qed.

Lemma Tool_init_refuses tool op default schema :
  summary_is_text op = false ->
  Tool_init tool
    (match assoc_lookup "summary" op with
     | Some x => x
     | None => JStr default
     end) schema = Raise ValidationError.
Proof.
  unfold summary_is_text.
  destruct (assoc_lookup "summary" op) as [[| | | | | |]|]; simpl;
    intros H; try discriminate H; reflexivity.
Qed.

Lemma symbol_schema_inv spec symbol :
  (components <-? getitem spec "components" ;;
   schemas <-? getitem components "schemas" ;;
   getitem schemas "Symbol") = Ok symbol ->
  symbol_schema spec = Some symbol.
Proof.
  unfold symbol_schema.
  destruct spec as [| | | | |?|top]; try discriminate. simpl.
  destruct (assoc_lookup "components" top) as [[| | | | |?|components]|];
    try discriminate. simpl.
  destruct (assoc_lookup "schemas" components) as [[| | | | |?|schemas]|];
    try discriminate. simpl.
  destruct (assoc_lookup "Symbol" schemas); congruence.
Qed.

(** Everything that a catalogue tells about the description it was built
    from. *)
Lemma build_tools_inv spec tools :
  build_tools_from_spec spec = Ok tools ->
  exists o1 o2 o3 o4 symbol,
    operation spec "/symbol" "get" = Some o1
    /\ operation spec "/symbol/{id}" "get" = Some o2
    /\ operation spec "/save_symbol/{symbol_id}" "put" = Some o3
    /\ operation spec "/domains" "get" = Some o4
    /\ symbol_schema spec = Some symbol
    /\ summary_is_text o1 = true /\ summary_is_text o2 = true
    /\ summary_is_text o3 = true /\ summary_is_text o4 = true
    /\ tools =
         [ {| name := "query_symbols";
              description := expected_description o1 "Query symbols";
              inputSchema := query_symbols_schema |};
           {| name := "get_symbol_by_id";
              description := expected_description o2 "Get symbol by ID";
              inputSchema := get_symbol_by_id_schema |};
           {| name := "put_symbol_by_id";
              description := expected_description o3 "Save symbol";
              inputSchema := put_symbol_by_id_schema symbol |};
           {| name := "list_domains";
              description := expected_description o4 "List symbol domains";
              inputSchema := list_domains_schema |} ].
Proof.
  unfold build_tools_from_spec. intros H.
  destruct (summary spec "/symbol" "get" _) as [d1|] eqn:S1;
    [|discriminate]. cbn [outcome_bind] in H.
  apply summary_inv in S1 as (o1 & O1 & ->).
  destruct (Tool_init "query_symbols" _ _) as [t1|] eqn:T1;
    [|discriminate]. cbn [outcome_bind] in H.
  apply Tool_init_inv in T1 as [X1 ->].
  destruct (summary spec "/symbol/{id}" "get" _) as [d2|] eqn:S2;
    [|discriminate]. cbn [outcome_bind] in H.
  apply summary_inv in S2 as (o2 & O2 & ->).
  destruct (Tool_init "get_symbol_by_id" _ _) as [t2|] eqn:T2;
    [|discriminate]. cbn [outcome_bind] in H.
  apply Tool_init_inv in T2 as [X2 ->].
  destruct (summary spec "/save_symbol/{symbol_id}" "put" _) as [d3|] eqn:S3;
    [|discriminate]. cbn [outcome_bind] in H.
  apply summary_inv in S3 as (o3 & O3 & ->).
  destruct (getitem spec "components") as [c|] eqn:G1; [|discriminate].
  cbn [outcome_bind] in H.
  destruct (getitem c "schemas") as [s|] eqn:G2; [|discriminate].
  cbn [outcome_bind] in H.
  destruct (getitem s "Symbol") as [symbol|] eqn:G3; [|discriminate].
  cbn [outcome_bind] in H.
  assert (Y : symbol_schema spec = Some symbol).
  { apply symbol_schema_inv. unfold outcome_bind. now rewrite G1, G2. }
  destruct (Tool_init "put_symbol_by_id" _ _) as [t3|] eqn:T3;
    [|discriminate]. cbn [outcome_bind] in H.
  apply Tool_init_inv in T3 as [X3 ->].
  destruct (summary spec "/domains" "get" _) as [d4|] eqn:S4;
    [|discriminate]. cbn [outcome_bind] in H.
  apply summary_inv in S4 as (o4 & O4 & ->).
  destruct (Tool_init "list_domains" _ _) as [t4|] eqn:T4;
    [|discriminate]. cbn [outcome_bind] in H.
  apply Tool_init_inv in T4 as [X4 ->].
  injection H as <-.
  exists o1, o2, o3, o4, symbol. repeat (split; [assumption|]). reflexivity.
Qed.

(** X9. The builder returns a catalogue only for a description that has
    the four paths with their operations, whose summaries are strings or
    null where present, and that has the schema component Symbol; what
    it returns then are the four tools under their names, never fewer
    and never others. *)
Theorem catalogue_needs (spec : json) (tools : list Tool) :
  build_tools_from_spec spec = Ok tools ->
  has_required_paths spec = true
  /\ summaries_are_text spec = true
  /\ symbol_schema spec <> None
  /\ map name tools
     = ["query_symbols"; "get_symbol_by_id"; "put_symbol_by_id";
        "list_domains"].
Proof.
  intros H.
  apply build_tools_inv in H
    as (o1 & o2 & o3 & o4 & symbol & O1 & O2 & O3 & O4 & Y
        & X1 & X2 & X3 & X4 & ->).
  unfold has_required_paths, summaries_are_text, required_paths.
  cbn [forallb]. rewrite O1, O2, O3, O4.
  fold (summary_is_text o1) (summary_is_text o2) (summary_is_text o3)
    (summary_is_text o4).
  rewrite X1, X2, X3, X4, Y. repeat split. discriminate.
Qed.

(** X10. The description of each tool is the summary of its operation
    when that is a string, the tool's fixed default when the operation
    has no summary, and absent when the summary is null. *)
Theorem catalogue_descriptions (spec : json) (tools : list Tool) :
  build_tools_from_spec spec = Ok tools ->
  exists o1 o2 o3 o4,
    operation spec "/symbol" "get" = Some o1
    /\ operation spec "/symbol/{id}" "get" = Some o2
    /\ operation spec "/save_symbol/{symbol_id}" "put" = Some o3
    /\ operation spec "/domains" "get" = Some o4
    /\ map description tools =
         [expected_description o1 "Query symbols";
          expected_description o2 "Get symbol by ID";
          expected_description o3 "Save symbol";
          expected_description o4 "List symbol domains"]
    /\ (forall op default,
          (assoc_lookup "summary" op = None ->
           expected_description op default = Some default)
          /\ (forall s, assoc_lookup "summary" op = Some (JStr s) ->
              expected_description op default = Some s)
          /\ (assoc_lookup "summary" op = Some JNull ->
              expected_description op default = None)).
Proof.
  intros H.
  apply build_tools_inv in H
    as (o1 & o2 & o3 & o4 & symbol & O1 & O2 & O3 & O4 & Y
        & X1 & X2 & X3 & X4 & ->).
  exists o1, o2, o3, o4. repeat (split; [assumption|]).
  split; [reflexivity|].
  intros op default. unfold expected_description.
  repeat split; [intros -> | intros s -> | intros ->]; reflexivity.
Qed.

(** X11. The schema component Symbol of the description can be read back
    from the catalogue, as the "symbol" property of the third tool;
    that tool requires "symbol_id" and "symbol", the second one "id",
    and the first and the last require nothing. *)
Theorem catalogue_schemas (spec : json) (tools : list Tool) :
  build_tools_from_spec spec = Ok tools ->
  exists t1 t2 t3 t4 symbol,
    tools = [t1; t2; t3; t4]
    /\ symbol_schema spec = Some symbol
    /\ (properties <-? getitem (inputSchema t3) "properties" ;;
        getitem properties "symbol") = Ok symbol
    /\ getitem (inputSchema t3) "required"
       = Ok (JList [JStr "symbol_id"; JStr "symbol"])
    /\ getitem (inputSchema t2) "required" = Ok (JList [JStr "id"])
    /\ getitem (inputSchema t1) "required" = Raise (KeyError "required")
    /\ getitem (inputSchema t4) "required" = Raise (KeyError "required").
Proof.
  intros H.
  apply build_tools_inv in H
    as (o1 & o2 & o3 & o4 & symbol & O1 & O2 & O3 & O4 & Y
        & X1 & X2 & X3 & X4 & ->).
  do 4 eexists. exists symbol. split; [reflexivity|].
  split; [exact Y|]. repeat split.
Qed.

(** X12. When the four operations and the schema component are there and
    some summary is neither a string nor null, the builder ends in the
    validation failure of the tool model. *)
Theorem catalogue_refuses_summary (spec : json) (symbol : json) :
  has_required_paths spec = true ->
  symbol_schema spec = Some symbol ->
  summaries_are_text spec = false ->
  build_tools_from_spec spec = Raise ValidationError.
Proof.
  unfold has_required_paths, summaries_are_text, required_paths.
  cbn [forallb]. rewrite !andb_true_r.
  intros Hp Hs Ht.
  destruct (operation spec "/symbol" "get") as [o1|] eqn:E1;
    [|discriminate].
  destruct (operation spec "/symbol/{id}" "get") as [o2|] eqn:E2;
    [|discriminate].
  destruct (operation spec "/save_symbol/{symbol_id}" "put") as [o3|] eqn:E3;
    [|discriminate].
  destruct (operation spec "/domains" "get") as [o4|] eqn:E4;
    [|discriminate].
  clear Hp.
  fold (summary_is_text o1) (summary_is_text o2) (summary_is_text o3)
    (summary_is_text o4) in Ht.
  apply symbol_schema_lookup in Hs. unfold outcome_bind in Hs.
  unfold build_tools_from_spec.
  rewrite (summary_of_operation _ _ _ _ _ E1),
    (summary_of_operation _ _ _ _ _ E2),
    (summary_of_operation _ _ _ _ _ E3),
    (summary_of_operation _ _ _ _ _ E4).
  cbn [outcome_bind].
  destruct (summary_is_text o1) eqn:X1;
    [|now rewrite Tool_init_refuses].
  edestruct (Tool_init_text "query_symbols" o1 "Query symbols") as [d1 ->];
    [exact X1|]. cbn [outcome_bind].
  destruct (summary_is_text o2) eqn:X2;
    [|now rewrite Tool_init_refuses].
  edestruct (Tool_init_text "get_symbol_by_id" o2 "Get symbol by ID")
    as [d2 ->]; [exact X2|]. cbn [outcome_bind].
  destruct (getitem spec "components") as [components|]; [|discriminate].
  cbn [outcome_bind] in *.
  destruct (getitem components "schemas") as [schemas|]; [|discriminate].
  cbn [outcome_bind] in *. rewrite Hs. cbn [outcome_bind].
  destruct (summary_is_text o3) eqn:X3;
    [|now rewrite Tool_init_refuses].
  edestruct (Tool_init_text "put_symbol_by_id" o3 "Save symbol")
    as [d3 ->]; [exact X3|]. cbn [outcome_bind].
  destruct (summary_is_text o4) eqn:X4;
    [discriminate Ht | now rewrite Tool_init_refuses].
Qed.

(** ** The catalogue and the dispatcher *)




Section catalogue_and_dispatcher.
Variable str_repr : string -> string.

End catalogue_and_dispatcher.

(** ** More about the pretty-printed text *)











(** X15. A string payload reads back: the literal that the encoder writes
    for a string stands for that string, byte for byte. *)
Theorem string_round_trip (s : string) :
  read_literal (format_json_payload (JStr s)) = Some s.
Proof.
  unfold read_literal, format_json_payload. cbn [_iterencode].
  rewrite key_scan_string by now left.
  now rewrite text_of_rev.
Qed.

(** X16. An integer payload reads back: the text that the encoder writes
    for an integer is the decimal numeral of that integer. *)
Theorem integer_round_trip (z : Z) :
  read_int (format_json_payload (JInt z)) = Some z.
Proof.
  unfold read_int, format_json_payload, int_repr. cbn [_iterencode].
  unfold int_repr. rewrite NilZero.isi.
  - simpl. now rewrite DecimalZ.of_to.
  - destruct z; simpl; try discriminate.
    intros [= H]. exact (DecimalPos.Unsigned.to_uint_nonnil _ H).
  - destruct z; simpl; try discriminate.
    intros [= H]. exact (DecimalPos.Unsigned.to_uint_nonnil _ H).
Qed.

(** ** Taking a result text apart *)

Section result_texts.
Variable str_repr : string -> string.

(** X17. The result text of a [query_symbols] or [list_domains]
    invocation whose call comes back with a payload splits at its first
    line break into the heading and the pretty-printed payload, which is
    how the test suite reads the payload back. *)
Theorem result_splits_at_first_line
    (name : string) (arguments : gmap string json) (w : World)
    (call : Outbound) (response : httpx_Response) (data : json) :
  name = "query_symbols" \/ name = "list_domains" ->
  sent (snd (call_tool str_repr name arguments w))
    = (sent w ++ [call])%list ->
  remote w (sent w) call = Some response ->
  is_success response = true ->
  decoded response = Some data ->
  exists heading result,
    fst (call_tool str_repr name arguments w)
      = Ok [ {| content_type := "text"; content_text := result |} ]
    /\ split_once newline_char result
       = [heading; format_json_payload data].
Proof.
  intros [-> | ->] Hsent Hanswer Hstatus Hdata.
  - rewrite call_tool_query_symbols in *.
    apply settle_sent in Hsent; subst call.
    erewrite settle_success by eassumption.
    exists (if truthy data then "Query results:" else "No symbols returned:").
    eexists. split; [reflexivity|].
    destruct (truthy data); reflexivity.
  - rewrite call_tool_list_domains in *.
    apply settle_sent in Hsent; subst call.
    erewrite settle_success by eassumption.
    exists "Available domains:". eexists. split; reflexivity.
Qed.
End result_texts.

(** ** The further properties at sample inputs *)


Lemma other_failures_escape_witness :
  fst (call_tool sample_str_repr "list_domains" ∅ unreachable)
  = Raise TransportError
  /\ fst (call_tool sample_str_repr "list_domains" ∅
            (answering response_page))
     = Raise JSONDecodeError.
Proof.
  split.
  - apply (proj1 (other_failures_escape sample_str_repr "list_domains" ∅
                    unreachable
                    (outbound (client_of unreachable)
                       "GET" "/domains" None None)
                    ltac:(reflexivity))).
    reflexivity.
  - apply (proj2 (other_failures_escape sample_str_repr "list_domains" ∅
                    (answering response_page)
                    (outbound (client_of (answering response_page))
                       "GET" "/domains" None None)
                    ltac:(reflexivity)) response_page); reflexivity.
Defined.



Lemma call_tool_reads_only_witness :
  call_tool sample_str_repr "get_symbol_by_id"
    {[ "id" := JStr "s1"; "limit" := JInt 3 ]} (answering response_numbers)
  = call_tool sample_str_repr "get_symbol_by_id"
      {[ "id" := JStr "s1" ]} (answering response_numbers).
Proof.
  apply (call_tool_reads_only sample_str_repr "get_symbol_by_id").
  intros key [<- | []]. reflexivity.
Defined.

Lemma catalogue_needs_witness :
  has_required_paths spec_with_schema = true
  /\ summaries_are_text spec_with_schema = true
  /\ symbol_schema spec_with_schema <> None
  /\ map name sample_catalogue
     = ["query_symbols"; "get_symbol_by_id"; "put_symbol_by_id";
        "list_domains"].
Proof.
  apply (catalogue_needs spec_with_schema sample_catalogue). reflexivity.
Defined.

Lemma catalogue_descriptions_witness :
  map description sample_catalogue
  = [Some "Query"; Some "Get"; Some "Save"; Some "List symbol domains"].
Proof.
  destruct (catalogue_descriptions spec_with_schema sample_catalogue ltac:(reflexivity))
    as (o1 & o2 & o3 & o4 & O1 & O2 & O3 & O4 & Hd & _).
  vm_compute in O1, O2, O3, O4.
  injection O1 as <-. injection O2 as <-. injection O3 as <-.
  injection O4 as <-. exact Hd.
Defined.

Lemma catalogue_schemas_witness :
  exists t1 t2 t3 t4,
    sample_catalogue = [t1; t2; t3; t4]
    /\ (properties <-? getitem (inputSchema t3) "properties" ;;
        getitem properties "symbol")
       = Ok (JDict [("type", JStr "object")]).
Proof.
  destruct (catalogue_schemas spec_with_schema sample_catalogue ltac:(reflexivity))
    as (t1 & t2 & t3 & t4 & symbol & Ht & Hs & Hl & _).
  exists t1, t2, t3, t4. split; [exact Ht|].
  vm_compute in Hs. injection Hs as <-. exact Hl.
Defined.

Lemma catalogue_refuses_summary_witness :
  build_tools_from_spec spec_with_numeric_summary = Raise ValidationError.
Proof.
  apply (catalogue_refuses_summary spec_with_numeric_summary (JDict []));
    reflexivity.
Defined.


Lemma result_splits_at_first_line_witness :
  exists heading result,
    fst (call_tool sample_str_repr "query_symbols" ∅
           (answering response_zero))
      = Ok [text_content result]
    /\ split_once newline_char result = [heading; "0"].
Proof.
  apply (result_splits_at_first_line sample_str_repr "query_symbols" ∅
           (answering response_zero)
           (outbound (client_of (answering response_zero))
              "GET" "/symbol" (Some []) None)
           response_zero (JInt 0)); auto; reflexivity.
Defined.
